(** * bless_points_tracker.py: delta reconstruction, summary breakdown,
      upsert persistence and the per-account retry loop

    A shallow embedding of [BlessUptimeTracker] (src/bless_points_tracker.py)
    and the properties its specification states about it.

    Conventions of the embedding:
    - a Python [int] is a [Z]; the JSON counters are integers (reward minutes);
    - a Python [float] is an IEEE-754 binary64 value, [spec_float] with
      precision 53 and maximal exponent 1024, computed with the operations
      of [SpecFloat] (round to nearest, ties to even);
    - a Python [str] is a [string]; comparison is lexicographic on the
      characters, as [str.__lt__] is on code points;
    - [dict.get(k, d)] on a JSON object is [default d (m !! k)] on a [gmap],
      or [default d] of an optional record field;
    - the MongoDB collection is the list of its documents in natural order;
    - the network and the clock are inputs: what a fetch returns at each
      attempt, and the reading of [datetime.now()]. *)

From Stdlib Require Import ZArith SpecFloat.
From stdpp Require Import list strings pretty gmap sorting.

Local Open Scope Z_scope.

(** ** Python values *)

Module Py.

(** *** Floats *)

Definition prec : Z := 53.
Definition emax : Z := 1024.

Definition float : Type := spec_float.

(** An integer as an unrounded operand (mantissa [n], exponent 0). *)
Definition exact_int (n : Z) : float :=
  match n with
  | Z0 => S754_zero false
  | Zpos p => S754_finite false p 0
  | Zneg p => S754_finite true p 0
  end.

(** [float(n)], the conversion applied to the [int] operand of a mixed
    [float]/[int] operation: the nearest binary64 value. *)
Definition float_of_int (n : Z) : float :=
  binary_normalize prec emax n 0 false.

(** [a / b] on two [int]s: the exact quotient rounded once.  (Beyond the
    binary64 range, about [60 * 2^1024] minutes for the divisions below,
    Python raises [OverflowError] where this yields an infinity; reward
    counters are minutes and stay far from that range.) *)
Definition int_truediv (a b : Z) : float :=
  SFdiv prec emax (exact_int a) (exact_int b).

Definition float_div_int (x : float) (n : Z) : float :=
  SFdiv prec emax x (float_of_int n).
Definition float_sub_int (x : float) (n : Z) : float :=
  SFsub prec emax x (float_of_int n).
Definition float_mul_int (x : float) (n : Z) : float :=
  SFmul prec emax x (float_of_int n).

(** [int(x)]: truncation towards zero. *)
Definition int_of_float (x : float) : Z :=
  match x with
  | S754_finite s m e => cond_Zopp s (Z.shiftl (Zpos m) e)
  | _ => 0
  end.

(** [n / d] rounded to the nearest integer, ties to the even one
    ([0 < d]). *)
Definition round_half_even (n d : Z) : Z :=
  let q := n / d in
  match 2 * (n mod d) ?= d with
  | Lt => q
  | Gt => q + 1
  | Eq => if Z.even q then q else q + 1
  end.

(** [round(x, 2)]: the decimal with two fractional digits nearest to the
    exact value of [x] (ties to even), read back as the nearest float. *)
Definition round2 (x : float) : float :=
  match x with
  | S754_finite s m e =>
      let n := if 0 <=? e then 100 * Zpos m * 2 ^ e
               else round_half_even (100 * Zpos m) (2 ^ (- e)) in
      match n with
      | Zpos p => SFdiv prec emax (S754_finite s p 0) (exact_int 100)
      | _ => S754_zero s
      end
  | _ => x
  end.

(** *** [sorted(l, key=...)] with string keys

    [sorted] is stable, and a stable sort is determined by its input (lemma
    [sorted_unique] below): insertion from the right stands for it. *)

Section Sorted.
Context {A : Type} (key : A → string).

Fixpoint insert_by (x : A) (l : list A) : list A :=
  match l with
  | [] => [x]
  | y :: l' =>
      if String.leb (key x) (key y) then x :: l else y :: insert_by x l'
  end.

Fixpoint sorted (l : list A) : list A :=
  match l with
  | [] => []
  | x :: l' => insert_by x (sorted l')
  end.

End Sorted.

(** *** Truthiness *)

(** [None] and [''] are falsy. *)
Definition truthy_str (s : option string) : bool :=
  match s with
  | Some s => negb (String.eqb s "")
  | None => false
  end.

(** [x is not None]. *)
Definition is_not_None {A : Type} (x : option A) : bool :=
  match x with
  | Some _ => true
  | None => false
  end.

(** [None] and [[]] are falsy. *)
Definition truthy_list {A : Type} (l : option (list A)) : bool :=
  match l with
  | Some (_ :: _) => true
  | _ => false
  end.

(** [None] and [{}] are falsy. *)
Definition truthy_dict (d : option (gmap string Z)) : bool :=
  match d with
  | Some m => negb (bool_decide (m = ∅))
  | None => false
  end.

End Py.

(** ** Data model *)

(** One entry of the earnings list; every key may be missing. *)
Module Raw.
Record t : Type := mk {
  date : option string;
  baseReward : option Z;
  totalReward : option Z;
  referralReward : option Z
}.
End Raw.

(** One element of the list built by [calculate_daily_uptime]. *)
Module Daily.
Record t : Type := mk {
  date : option string;
  daily_base_minutes : Z;
  daily_total_minutes : Z;
  daily_referral_minutes : Z;
  daily_base_hours : Py.float;
  daily_total_hours : Py.float;
  cumulative_base_minutes : Z;
  cumulative_total_minutes : Z;
  cumulative_referral_minutes : Z
}.
End Daily.

(** The three counters of a record. *)
Inductive Counter : Type := Base | Total | Referral.

(** [record.get('baseReward', 0)] and its two siblings. *)
Definition current (c : Counter) (record : Raw.t) : Z :=
  match c with
  | Base => default 0 (Raw.baseReward record)
  | Total => default 0 (Raw.totalReward record)
  | Referral => default 0 (Raw.referralReward record)
  end.

Definition daily_minutes (c : Counter) (d : Daily.t) : Z :=
  match c with
  | Base => Daily.daily_base_minutes d
  | Total => Daily.daily_total_minutes d
  | Referral => Daily.daily_referral_minutes d
  end.

Definition cumulative_minutes (c : Counter) (d : Daily.t) : Z :=
  match c with
  | Base => Daily.cumulative_base_minutes d
  | Total => Daily.cumulative_total_minutes d
  | Referral => Daily.cumulative_referral_minutes d
  end.

(** ** [calculate_daily_uptime] *)

(** The sort key, [lambda x: x.get('date', '')]. *)
Definition date_key (x : Raw.t) : string := default "" (Raw.date x).

(** The body of [for record in sorted_records], with the three running
    [prev_*] variables as arguments. *)
Fixpoint daily_loop (sorted_records : list Raw.t)
    (prev_base prev_total prev_referral : Z) : list Daily.t :=
  match sorted_records with
  | [] => []
  | record :: rest =>
      let current_base := default 0 (Raw.baseReward record) in
      let current_total := default 0 (Raw.totalReward record) in
      let current_referral := default 0 (Raw.referralReward record) in
      let daily_base := Z.max 0 (current_base - prev_base) in
      let daily_total := Z.max 0 (current_total - prev_total) in
      let daily_ref := Z.max 0 (current_referral - prev_referral) in
      {| Daily.date := Raw.date record;
         Daily.daily_base_minutes := daily_base;
         Daily.daily_total_minutes := daily_total;
         Daily.daily_referral_minutes := daily_ref;
         Daily.daily_base_hours := Py.round2 (Py.int_truediv daily_base 60);
         Daily.daily_total_hours := Py.round2 (Py.int_truediv daily_total 60);
         Daily.cumulative_base_minutes := current_base;
         Daily.cumulative_total_minutes := current_total;
         Daily.cumulative_referral_minutes := current_referral |}
      :: daily_loop rest current_base current_total current_referral
  end.

Definition calculate_daily_uptime (uptime_records : list Raw.t)
    (user_id : string) : list Daily.t :=
  match uptime_records with
  | [] => []
  | _ :: _ =>
      let sorted_records := Py.sorted date_key uptime_records in
      daily_loop sorted_records 0 0 0
  end.

(** ** Documents and the collection *)

(** The value of [participation_time_breakdown]. *)
Record Breakdown : Type := {
  days : Z;
  hours : Z;
  minutes : Z;
  total_formatted : string
}.

(** A document with [type = "summary"]. *)
Module Summary.
Record t : Type := mk {
  user_id : string;
  account_name : string;
  pubkey : string;
  timestamp : Z;
  today_base_minutes : Z;
  today_total_minutes : Z;
  today_referral_minutes : Z;
  alltime_base_minutes : Z;
  alltime_total_minutes : Z;
  alltime_referral_minutes : Z;
  today_total_hours : Py.float;
  alltime_total_hours : Py.float;
  alltime_total_days : Py.float;
  total_days_tracked : Z;
  participation_time_breakdown : Breakdown
}.
End Summary.

(** A document with [type = "daily_uptime"]; [record] is the spread
    [**daily_record], whose keys are disjoint from the five others. *)
Module DailyDoc.
Record t : Type := mk {
  user_id : string;
  account_name : string;
  pubkey : string;
  timestamp : Z;
  record : Daily.t
}.
End DailyDoc.

(** The [type] field is the constructor. *)
Inductive Document : Type :=
  | SummaryDocument (doc : Summary.t)
  | DailyDocument (doc : DailyDoc.t).

(** The filter [{"type": "summary", "user_id": user_id}]. *)
Definition summary_filter (user_id : string) (d : Document) : bool :=
  match d with
  | SummaryDocument s => bool_decide (Summary.user_id s = user_id)
  | DailyDocument _ => false
  end.

(** The filter [{"type": "daily_uptime", "user_id": user_id, "date": date}]. *)
Definition daily_filter (user_id : string) (date : option string)
    (d : Document) : bool :=
  match d with
  | SummaryDocument _ => false
  | DailyDocument dd =>
      bool_decide (DailyDoc.user_id dd = user_id)
      && bool_decide (Daily.date (DailyDoc.record dd) = date)
  end.

(** [collection.replace_one(filter, replacement, upsert)]: the first
    document matching the filter is replaced as a whole; when none matches
    and [upsert] is set, the replacement is inserted.  The result carries
    [matched_count]. *)
Fixpoint replace_one (filter : Document → bool) (replacement : Document)
    (upsert : bool) (collection : list Document) : list Document * Z :=
  match collection with
  | [] => (if upsert then [replacement] else [], 0)
  | d :: rest =>
      if filter d then (replacement :: rest, 1)
      else
        let '(rest', matched_count) :=
          replace_one filter replacement upsert rest in
        (d :: rest', matched_count)
  end.

(** The two partial unique indexes created by [setup_database]: at most one
    summary document per [user_id], at most one daily document per
    ([user_id], [date]). *)
Definition summary_key (d : Document) : option string :=
  match d with
  | SummaryDocument s => Some (Summary.user_id s)
  | DailyDocument _ => None
  end.

Definition daily_key (d : Document) : option (string * option string) :=
  match d with
  | SummaryDocument _ => None
  | DailyDocument dd =>
      Some (DailyDoc.user_id dd, Daily.date (DailyDoc.record dd))
  end.

Definition unique_index (collection : list Document) : Prop :=
  NoDup (omap summary_key collection) ∧ NoDup (omap daily_key collection).

(** ** The world of the tracker: the collection and the calls made *)

Inductive Level : Type := INFO | WARNING | ERROR.

(** The log lines of [save_to_database] and [process_account], with the
    values they interpolate. *)
Inductive Message : Type :=
  | No_data (account_name : string)
  | Overview_summary (action account_name : string)
      (alltime_total days hours minutes : Z)
  | Daily_uptime (account_name : string) (saved_count updated_count : Z)
  | Skipping (name : string)
  | Processing_account (name : string) (attempt max_retries : Z)
  | Using_proxy (proxy : option string) (name : string)
  | Successfully_completed (name : string)
  | Retrying (name : string) (retry_delay : Z)
  | Failed_to_process (name : string) (max_retries : Z).

Inductive Event : Type :=
  | Log (level : Level) (message : Message)
  | Sleep (seconds : Z)
  | Fetch_overview_data (token : string) (proxy : option string)
  | Fetch_uptime_data (token pubkey : string) (proxy : option string)
  | Save_to_database (uptime_data : option (list Raw.t))
      (overview_data : option (gmap string Z))
      (account_name user_id pubkey : string).

Record World : Type := {
  collection : list Document;
  trace : list Event
}.

Definition emit (e : Event) (w : World) : World :=
  {| collection := collection w; trace := trace w ++ [e] |}.

Definition with_collection (c : list Document) (w : World) : World :=
  {| collection := c; trace := trace w |}.

(** What the outside gives at each attempt of [process_account] (numbered
    from 0): the proxy drawn by [get_random_proxy] and the results of the
    two fetches ([None] for any failure); and the clock read by
    [save_to_database]. *)
Record Env : Type := {
  random_proxy : nat → option string;
  overview_response : nat → option (gmap string Z);
  earnings_response : nat → option (list Raw.t);
  now : Z
}.

(** ** [save_to_database] *)

(** The "detailed time breakdown" of [save_to_database], computed from
    [alltime_total] in floating point as the source does. *)
Definition participation_time_breakdown (alltime_total : Z) : Breakdown :=
  let total_minutes := alltime_total in
  let total_hours := Py.int_truediv total_minutes 60 in
  let total_days := Py.float_div_int total_hours 24 in
  let days := Py.int_of_float total_days in
  let remaining_hours := Py.float_sub_int total_hours (days * 24) in
  let hours := Py.int_of_float remaining_hours in
  let minutes :=
    Py.int_of_float
      (Py.float_mul_int (Py.float_sub_int remaining_hours hours) 60) in
  {| days := days;
     hours := hours;
     minutes := minutes;
     total_formatted :=
       pretty days +:+ " days, " +:+ pretty hours +:+ " hours, "
       +:+ pretty minutes +:+ " minutes" |}.

(** [summary_doc], after its [update] with the breakdown. *)
Definition summary_doc (timestamp : Z) (overview_data : gmap string Z)
    (account_name user_id pubkey : string) (daily_records : list Daily.t)
    : Summary.t :=
  let today_base := default 0 (overview_data !! "todayBaseReward") in
  let today_total := default 0 (overview_data !! "todayTotalReward") in
  let today_referral := default 0 (overview_data !! "todayReferralsReward") in
  let alltime_base := default 0 (overview_data !! "allTimeBaseReward") in
  let alltime_total := default 0 (overview_data !! "allTimeTotalReward") in
  let alltime_referral :=
    default 0 (overview_data !! "allTimeReferralsReward") in
  {| Summary.user_id := user_id;
     Summary.account_name := account_name;
     Summary.pubkey := pubkey;
     Summary.timestamp := timestamp;
     Summary.today_base_minutes := today_base;
     Summary.today_total_minutes := today_total;
     Summary.today_referral_minutes := today_referral;
     Summary.alltime_base_minutes := alltime_base;
     Summary.alltime_total_minutes := alltime_total;
     Summary.alltime_referral_minutes := alltime_referral;
     Summary.today_total_hours := Py.round2 (Py.int_truediv today_total 60);
     Summary.alltime_total_hours :=
       Py.round2 (Py.int_truediv alltime_total 60);
     Summary.alltime_total_days :=
       Py.round2 (Py.int_truediv alltime_total (60 * 24));
     Summary.total_days_tracked := Z.of_nat (length daily_records);
     Summary.participation_time_breakdown :=
       participation_time_breakdown alltime_total |}.

(** The branch [if overview_data:]. *)
Definition save_summary (timestamp : Z) (overview_data : gmap string Z)
    (account_name user_id pubkey : string) (daily_records : list Daily.t)
    (w : World) : World :=
  let doc :=
    summary_doc timestamp overview_data account_name user_id pubkey
      daily_records in
  let '(c, matched_count) :=
    replace_one (summary_filter user_id) (SummaryDocument doc) true
      (collection w) in
  let action := if 0 <? matched_count then "Updated" else "Created" in
  let b := Summary.participation_time_breakdown doc in
  emit (Log INFO (Overview_summary action account_name
                    (Summary.alltime_total_minutes doc)
                    (days b) (hours b) (minutes b)))
    (with_collection c w).

Definition daily_doc (timestamp : Z) (account_name user_id pubkey : string)
    (daily_record : Daily.t) : DailyDoc.t :=
  {| DailyDoc.user_id := user_id;
     DailyDoc.account_name := account_name;
     DailyDoc.pubkey := pubkey;
     DailyDoc.timestamp := timestamp;
     DailyDoc.record := daily_record |}.

(** One upsert of the loop [for daily_record in daily_records]. *)
Definition upsert_daily (timestamp : Z) (account_name user_id pubkey : string)
    (daily_record : Daily.t) (c : list Document) : list Document * Z :=
  replace_one (daily_filter user_id (Daily.date daily_record))
    (DailyDocument
       (daily_doc timestamp account_name user_id pubkey daily_record))
    true c.

(** The loop, with its two counters. *)
Fixpoint save_daily_records (timestamp : Z)
    (account_name user_id pubkey : string) (daily_records : list Daily.t)
    (saved_count updated_count : Z) (c : list Document)
    : list Document * Z * Z :=
  match daily_records with
  | [] => (c, saved_count, updated_count)
  | daily_record :: rest =>
      let '(c', matched_count) :=
        upsert_daily timestamp account_name user_id pubkey daily_record c in
      if 0 <? matched_count then
        save_daily_records timestamp account_name user_id pubkey rest
          saved_count (updated_count + 1) c'
      else
        save_daily_records timestamp account_name user_id pubkey rest
          (saved_count + 1) updated_count c'
  end.

(** [save_to_database]; [timestamp] is the value of [datetime.now()].  The
    storage is taken to answer every call (no connection failure), so the
    [except] branch is not entered. *)
Definition save_to_database (timestamp : Z)
    (uptime_data : option (list Raw.t))
    (overview_data : option (gmap string Z))
    (account_name user_id pubkey : string) (w : World) : World :=
  let w :=
    emit (Save_to_database uptime_data overview_data account_name user_id
            pubkey) w in
  if negb (Py.truthy_list uptime_data) && negb (Py.truthy_dict overview_data)
  then emit (Log WARNING (No_data account_name)) w
  else
    let daily_records :=
      if Py.truthy_list uptime_data
      then calculate_daily_uptime (default [] uptime_data) user_id
      else [] in
    let w :=
      if Py.truthy_dict overview_data
      then save_summary timestamp (default ∅ overview_data) account_name
             user_id pubkey daily_records w
      else w in
    match daily_records with
    | [] => w
    | _ :: _ =>
        let '(c, saved_count, updated_count) :=
          save_daily_records timestamp account_name user_id pubkey
            daily_records 0 0 (collection w) in
        emit (Log INFO (Daily_uptime account_name saved_count updated_count))
          (with_collection c w)
    end.

(** ** [process_account] *)

(** One entry of the [tokens] list. *)
Module Account.
Record t : Type := mk {
  name : option string;
  jwt_token : option string;
  user_id : option string;
  pubkey : option string
}.
End Account.

Definition max_retries : Z := 3.
Definition retry_delay : Z := 10.

(** The loop [for attempt in range(max_retries)], on the attempts left. *)
Fixpoint attempts (env : Env) (account : Account.t) (range : list nat)
    (w : World) : World :=
  match range with
  | [] => w
  | attempt :: rest =>
      let name := default "Unknown" (Account.name account) in
      let token := Account.jwt_token account in
      let user_id := Account.user_id account in
      let pubkey := Account.pubkey account in
      if negb (Py.truthy_str token) || negb (Py.truthy_str user_id)
         || negb (Py.truthy_str pubkey)
      then emit (Log WARNING (Skipping name)) w
      else
        let token := default "" token in
        let user_id := default "" user_id in
        let pubkey := default "" pubkey in
        let w :=
          emit (Log INFO (Processing_account name (Z.of_nat attempt + 1)
                            max_retries)) w in
        let w := if 0 <? Z.of_nat attempt then emit (Sleep retry_delay) w
                 else w in
        let proxy := random_proxy env attempt in
        let w := emit (Log INFO (Using_proxy proxy name)) w in
        let w := emit (Fetch_overview_data token proxy) w in
        let overview_data := overview_response env attempt in
        let w := emit (Fetch_uptime_data token pubkey proxy) w in
        let uptime_data := earnings_response env attempt in
        if Py.is_not_None overview_data || Py.is_not_None uptime_data
        then
          let w :=
            save_to_database (now env) uptime_data overview_data name
              user_id pubkey w in
          emit (Log INFO (Successfully_completed name)) w
        else
          let w :=
            if Z.of_nat attempt <? max_retries - 1
            then emit (Log INFO (Retrying name retry_delay)) w
            else emit (Log ERROR (Failed_to_process name max_retries)) w in
          attempts env account rest w
  end.

Definition process_account (env : Env) (account : Account.t) (w : World)
    : World :=
  attempts env account (seq 0 (Z.to_nat max_retries)) w.

(** ** [fetch_overview_data] and [fetch_uptime_data] *)

(** What [self.scraper.get(...)] does: it raises, or it returns a response
    with its [status_code], its [text] (a sequence of characters of some
    type [C]) and the value of [response.json()], [None] when that raises
    [JSONDecodeError]. *)
Inductive Response (C A : Type) : Type :=
  | Raises
  | Responds (status_code : Z) (text : list C) (json : option A).
Arguments Raises {C A}.
Arguments Responds {C A} status_code text json.

(** The log lines of the two fetches. *)
Inductive FetchMessage (C : Type) : Type :=
  | Making_overview_request
  | Overview_response_status (status_code : Z)
  | Fetched_overview_data
  | Overview_failed_with_status (status_code : Z)
  | Error_fetching_overview
  | Making_earnings_request
  | Earnings_response_status (status_code : Z)
  | Fetched_uptime_records (count : Z)
  | JSON_decode_error
  | Response_text (text : list C)
  | Authentication_failed
  | Access_forbidden
  | Unexpected_status (status_code : Z)
  | Error_fetching_uptime.
Arguments Making_overview_request {C}.
Arguments Overview_response_status {C} status_code.
Arguments Fetched_overview_data {C}.
Arguments Overview_failed_with_status {C} status_code.
Arguments Error_fetching_overview {C}.
Arguments Making_earnings_request {C}.
Arguments Earnings_response_status {C} status_code.
Arguments Fetched_uptime_records {C} count.
Arguments JSON_decode_error {C}.
Arguments Response_text {C} text.
Arguments Authentication_failed {C}.
Arguments Access_forbidden {C}.
Arguments Unexpected_status {C} status_code.
Arguments Error_fetching_uptime {C}.

(** [fetch_overview_data], given what the request does: the value returned
    and the lines logged. *)
Definition fetch_overview_data {C : Type}
    (response : Response C (gmap string Z))
    : option (gmap string Z) * list (Level * FetchMessage C) :=
  match response with
  | Raises =>
      (None, [(INFO, Making_overview_request);
              (ERROR, Error_fetching_overview)])
  | Responds status_code text json =>
      let log :=
        [(INFO, Making_overview_request);
         (INFO, Overview_response_status status_code)] in
      if status_code =? 200 then
        match json with
        | Some data => (Some data, log ++ [(INFO, Fetched_overview_data)])
        | None => (None, log ++ [(ERROR, JSON_decode_error)])
        end
      else
        (None, log ++ [(ERROR, Overview_failed_with_status status_code)])
  end.

(** [fetch_uptime_data]; [response.text[:500]] is [take 500 text]. *)
Definition fetch_uptime_data {C : Type} (response : Response C (list Raw.t))
    : option (list Raw.t) * list (Level * FetchMessage C) :=
  match response with
  | Raises =>
      (None, [(INFO, Making_earnings_request);
              (ERROR, Error_fetching_uptime)])
  | Responds status_code text json =>
      let log :=
        [(INFO, Making_earnings_request);
         (INFO, Earnings_response_status status_code)] in
      if status_code =? 200 then
        match json with
        | Some data =>
            (Some data,
             log ++ [(INFO, Fetched_uptime_records (Z.of_nat (length data)))])
        | None =>
            (None,
             log ++ [(ERROR, JSON_decode_error);
                     (ERROR, Response_text (take 500 text))])
        end
      else if status_code =? 401 then
        (None, log ++ [(ERROR, Authentication_failed);
                       (ERROR, Response_text text)])
      else if status_code =? 403 then
        (None, log ++ [(ERROR, Access_forbidden);
                       (ERROR, Response_text (take 500 text))])
      else
        (None, log ++ [(ERROR, Unexpected_status status_code);
                       (ERROR, Response_text (take 500 text))])
  end.

(** ** [run_tracking_cycle] *)

Inductive CycleMessage : Type :=
  | Starting_cycle
  | No_tokens_loaded
  | Waiting_before_next_account (delay : Py.float)
  | Cycle_completed.

(** The events of a cycle: its own log lines and waits, and the events of
    the accounts it processes. *)
Inductive CycleEvent : Type :=
  | Cycle_log (level : Level) (message : CycleMessage)
  | Cycle_sleep (delay : Py.float)
  | Of_account (e : Event).

(** What the outside gives to a cycle: for the account at each position of
    the list, the environment of its [process_account] and the delay drawn
    by [random.uniform(5, 10)] before it. *)
Record CycleEnv : Type := {
  account_env : nat → Env;
  pacing_delay : nat → Py.float
}.

Record CycleWorld : Type := {
  cycle_collection : list Document;
  cycle_trace : list CycleEvent
}.

Definition cycle_emit (e : CycleEvent) (cw : CycleWorld) : CycleWorld :=
  {| cycle_collection := cycle_collection cw;
     cycle_trace := cycle_trace cw ++ [e] |}.

(** The loop [for i, account in enumerate(tokens)], from position [i] on. *)
Fixpoint cycle_loop (env : CycleEnv) (i : nat) (tokens : list Account.t)
    (cw : CycleWorld) : CycleWorld :=
  match tokens with
  | [] => cw
  | account :: rest =>
      let cw :=
        if 0 <? Z.of_nat i then
          let delay := pacing_delay env i in
          let cw :=
            cycle_emit (Cycle_log INFO (Waiting_before_next_account delay))
              cw in
          cycle_emit (Cycle_sleep delay) cw
        else cw in
      let w :=
        process_account (account_env env i) account
          {| collection := cycle_collection cw; trace := [] |} in
      cycle_loop env (S i) rest
        {| cycle_collection := collection w;
           cycle_trace := cycle_trace cw ++ (Of_account <$> trace w) |}
  end.

(** [run_tracking_cycle], on the list [load_tokens] returned. *)
Definition run_tracking_cycle (env : CycleEnv) (tokens : list Account.t)
    (cw : CycleWorld) : CycleWorld :=
  let cw := cycle_emit (Cycle_log INFO Starting_cycle) cw in
  match tokens with
  | [] => cycle_emit (Cycle_log WARNING No_tokens_loaded) cw
  | _ :: _ =>
      let cw := cycle_loop env 0 tokens cw in
      cycle_emit (Cycle_log INFO Cycle_completed) cw
  end.

(** ** [get_uptime_stats] *)

(** The stage [{"$sort": {"timestamp": -1}}]. *)
Fixpoint insert_by_timestamp (x : Summary.t) (l : list Summary.t)
    : list Summary.t :=
  match l with
  | [] => [x]
  | y :: l' =>
      if Summary.timestamp y <=? Summary.timestamp x then x :: l
      else y :: insert_by_timestamp x l'
  end.

Definition sort_by_timestamp_desc (l : list Summary.t) : list Summary.t :=
  foldr insert_by_timestamp [] l.

(** A document of the [$group] stage: [_id] is the [user_id], the other
    fields are the [$first] values of the group. *)
Module StatsRow.
Record t : Type := mk {
  _id : string;
  account_name : string;
  today_total_minutes : Z;
  alltime_total_minutes : Z;
  alltime_base_minutes : Z;
  alltime_referral_minutes : Z;
  participation_time_breakdown : Breakdown;
  last_updated : Z
}.
End StatsRow.

Definition stats_row (s : Summary.t) : StatsRow.t :=
  {| StatsRow._id := Summary.user_id s;
     StatsRow.account_name := Summary.account_name s;
     StatsRow.today_total_minutes := Summary.today_total_minutes s;
     StatsRow.alltime_total_minutes := Summary.alltime_total_minutes s;
     StatsRow.alltime_base_minutes := Summary.alltime_base_minutes s;
     StatsRow.alltime_referral_minutes := Summary.alltime_referral_minutes s;
     StatsRow.participation_time_breakdown :=
       Summary.participation_time_breakdown s;
     StatsRow.last_updated := Summary.timestamp s |}.

(** The stage [$group], on the sorted documents: one row per [user_id],
    from the first document of that user.  (MongoDB fixes neither the order
    of the rows nor, among documents of one user with equal timestamps,
    which comes first; the statements below do not depend on either.) *)
Fixpoint group_by_user_id (seen : list string) (l : list Summary.t)
    : list StatsRow.t :=
  match l with
  | [] => []
  | s :: l' =>
      if bool_decide (Summary.user_id s ∈ seen) then group_by_user_id seen l'
      else stats_row s :: group_by_user_id (Summary.user_id s :: seen) l'
  end.

(** [self.collection.aggregate(summary_pipeline)]. *)
Definition summary_pipeline (c : list Document) : list StatsRow.t :=
  let matched :=
    omap (λ d, match d with SummaryDocument s => Some s | _ => None end) c in
  group_by_user_id [] (sort_by_timestamp_desc matched).

(** The lines printed, with the values they interpolate. *)
Inductive PrintedLine : Type :=
  | No_data_available
  | Summary_header
  | Rule
  | Account_line (account_name : string)
  | Today_line (today_hours today_mins : Z)
  | Total_line (total_formatted : string)
  | Blank_line
  | Total_today_line (hours mins : Z)
  | Total_alltime_line (hours : Z) (days : Py.float)
  | Accounts_line (count : Z).

(** The loop [for result in summary_results], with the two running totals. *)
Fixpoint print_rows (summary_results : list StatsRow.t)
    (total_today_minutes total_alltime_minutes : Z)
    : list PrintedLine * Z * Z :=
  match summary_results with
  | [] => ([], total_today_minutes, total_alltime_minutes)
  | result :: rest =>
      let today_min := StatsRow.today_total_minutes result in
      let alltime_min := StatsRow.alltime_total_minutes result in
      let breakdown := StatsRow.participation_time_breakdown result in
      let total_today_minutes := total_today_minutes + today_min in
      let total_alltime_minutes := total_alltime_minutes + alltime_min in
      let today_hours := today_min `div` 60 in
      let today_mins := today_min `mod` 60 in
      let '(lines, total_today_minutes, total_alltime_minutes) :=
        print_rows rest total_today_minutes total_alltime_minutes in
      ([Account_line (StatsRow.account_name result);
        Today_line today_hours today_mins;
        Total_line (total_formatted breakdown);
        Blank_line] ++ lines,
       total_today_minutes, total_alltime_minutes)
  end.

(** [get_uptime_stats]: what it prints. *)
Definition get_uptime_stats (c : list Document) : list PrintedLine :=
  let summary_results := summary_pipeline c in
  match summary_results with
  | [] => [No_data_available]
  | _ :: _ =>
      let '(lines, total_today_minutes, total_alltime_minutes) :=
        print_rows summary_results 0 0 in
      [Summary_header; Rule] ++ lines
      ++ [Total_today_line (total_today_minutes `div` 60)
            (total_today_minutes `mod` 60);
          Total_alltime_line (total_alltime_minutes `div` 60)
            (Py.int_truediv total_alltime_minutes (60 * 24));
          Accounts_line (Z.of_nat (length summary_results));
          Rule]
  end.

(** ** [load_proxies] and [get_random_proxy] *)

(** [str.strip()] on a sequence of characters of some type [C], given
    which characters are whitespace ([str.isspace]): the whitespace at both
    ends is dropped. *)
Section Strip.
Context {C : Type} (is_space : C → bool).

Fixpoint lstrip (s : list C) : list C :=
  match s with
  | [] => []
  | c :: s' => if is_space c then lstrip s' else s
  end.

Fixpoint rstrip (s : list C) : list C :=
  match s with
  | [] => []
  | c :: s' =>
      match rstrip s' with
      | [] => if is_space c then [] else [c]
      | r => c :: r
      end
  end.

Definition strip (s : list C) : list C := rstrip (lstrip s).

End Strip.

Inductive ProxyMessage : Type :=
  | Loaded_proxies (count : Z)
  | Proxy_file_empty
  | Proxy_file_not_found.

(** [load_proxies], given the lines of [proxy.txt], or [None] when opening
    it raises [FileNotFoundError]: the list returned and the line
    logged. *)
Definition load_proxies {C : Type} (is_space : C → bool)
    (file : option (list (list C)))
    : list (list C) * list (Level * ProxyMessage) :=
  match file with
  | Some f =>
      let proxies :=
        strip is_space
        <$> base.filter (λ line, strip is_space line ≠ []) f in
      match proxies with
      | _ :: _ =>
          (proxies, [(INFO, Loaded_proxies (Z.of_nat (length proxies)))])
      | [] => (proxies, [(WARNING, Proxy_file_empty)])
      end
  | None => ([], [(WARNING, Proxy_file_not_found)])
  end.

(** [get_random_proxy]; [choice] is the position drawn by
    [random.choice]. *)
Definition get_random_proxy {C : Type} (proxies : list (list C))
    (choice : nat) : option (list C) :=
  match proxies with
  | _ :: _ => proxies !! (choice `mod` length proxies)%nat
  | [] => None
  end.

(** ** [load_tokens] and [create_tokens_template] *)

(** The tokens file: absent, present but not loadable into an object
    ([json.load] or [data.get] raises), or a JSON object, with the value of
    its ["tokens"] key when it has one. *)
Inductive TokensFile : Type :=
  | No_file
  | Unloadable
  | Tokens_object (tokens : option (list Account.t)).

Inductive TokensMessage : Type :=
  | Loaded_tokens (count : Z)
  | Tokens_file_not_found
  | Created_template
  | Error_loading_tokens.

(** The content written by [create_tokens_template]. *)
Definition template : TokensFile :=
  Tokens_object
    (Some [{| Account.name := Some "Account 1";
              Account.jwt_token := Some "YOUR_JWT_TOKEN_HERE";
              Account.user_id := Some "YOUR_USER_ID_HERE";
              Account.pubkey := Some "YOUR_PUBKEY_HERE" |}]).

Definition create_tokens_template (file : TokensFile)
    : TokensFile * list (Level * TokensMessage) :=
  (template, [(INFO, Created_template)]).

(** [load_tokens]: the list returned, the file afterwards and the lines
    logged. *)
Definition load_tokens (file : TokensFile)
    : list Account.t * TokensFile * list (Level * TokensMessage) :=
  match file with
  | Tokens_object data =>
      let tokens := default [] data in
      (tokens, file, [(INFO, Loaded_tokens (Z.of_nat (length tokens)))])
  | No_file =>
      let '(file', log) := create_tokens_template file in
      ([], file', (ERROR, Tokens_file_not_found) :: log)
  | Unloadable => ([], file, [(ERROR, Error_loading_tokens)])
  end.

(** ** Vocabulary of the statements *)

(** The order [sorted] puts its result in: by key, ascending. *)
Definition by_key {A : Type} (key : A → string) : relation A :=
  λ a b, String.le (key a) (key b).

(** The elements of [l] with key [k], in the order of [l]. *)
Definition with_key {A : Type} (key : A → string) (k : string)
    (l : list A) : list A :=
  filter (λ x, key x = k) l.

Definition sumZ (l : list Z) : Z := foldr Z.add 0 l.

Definition non_decreasing (l : list Z) : Prop := Sorted Z.le l.

(** The cumulative counters of a record list and the deltas of a result. *)
Definition counters (c : Counter) (l : list Raw.t) : list Z :=
  current c <$> l.

Definition deltas (c : Counter) (l : list Daily.t) : list Z :=
  daily_minutes c <$> l.

(** The [prev_*] variable of a counter. *)
Definition prev_of (c : Counter) (prev_base prev_total prev_referral : Z)
    : Z :=
  match c with
  | Base => prev_base
  | Total => prev_total
  | Referral => prev_referral
  end.

(** The documents of a collection that a filter selects, in order. *)
Definition matching (filter : Document → bool) (c : list Document)
    : list Document :=
  base.filter (λ d, Is_true (filter d)) c.

(** The summary documents, and the daily documents, of a collection. *)
Definition summaries (c : list Document) : list Summary.t :=
  omap (λ d, match d with SummaryDocument s => Some s | _ => None end) c.

Definition dailies (c : list Document) : list DailyDoc.t :=
  omap (λ d, match d with DailyDocument dd => Some dd | _ => None end) c.

(** The calls among the events of a trace: everything but the log lines. *)
Definition is_call (e : Event) : bool :=
  match e with
  | Log _ _ => false
  | _ => true
  end.

Definition calls (t : list Event) : list Event :=
  base.filter (λ e, Is_true (is_call e)) t.

(** An account with its three required fields, and one lacking one. *)
Definition complete (account : Account.t) : Prop :=
  Py.truthy_str (Account.jwt_token account) = true
  ∧ Py.truthy_str (Account.user_id account) = true
  ∧ Py.truthy_str (Account.pubkey account) = true.

Definition incomplete (account : Account.t) : Prop :=
  Py.truthy_str (Account.jwt_token account) = false
  ∨ Py.truthy_str (Account.user_id account) = false
  ∨ Py.truthy_str (Account.pubkey account) = false.

(** At least one of the two fetches of attempt [i] returns data. *)
Definition has_data (env : Env) (i : nat) : bool :=
  Py.is_not_None (overview_response env i)
  || Py.is_not_None (earnings_response env i).



(** The calls of attempt [i]: the wait, from the second attempt on, and the
    two fetches. *)
Definition attempt_calls (env : Env) (account : Account.t) (i : nat)
    : list Event :=
  (if decide (i = 0%nat) then [] else [Sleep 10])
  ++ [Fetch_overview_data (default "" (Account.jwt_token account))
        (random_proxy env i);
      Fetch_uptime_data (default "" (Account.jwt_token account))
        (default "" (Account.pubkey account)) (random_proxy env i)].


(** The events of an attempt up to the test of the fetched data. *)
Definition begin_attempt (env : Env) (account : Account.t) (i : nat)
    (w : World) : World :=
  let name := default "Unknown" (Account.name account) in
  let token := default "" (Account.jwt_token account) in
  let pubkey := default "" (Account.pubkey account) in
  let w :=
    emit (Log INFO (Processing_account name (Z.of_nat i + 1) max_retries))
      w in
  let w := if 0 <? Z.of_nat i then emit (Sleep retry_delay) w else w in
  let w := emit (Log INFO (Using_proxy (random_proxy env i) name)) w in
  let w := emit (Fetch_overview_data token (random_proxy env i)) w in
  emit (Fetch_uptime_data token pubkey (random_proxy env i)) w.

(** The log line that closes a failed attempt. *)
Definition end_failed_attempt (account : Account.t) (i : nat) (w : World)
    : World :=
  let name := default "Unknown" (Account.name account) in
  if Z.of_nat i <? max_retries - 1
  then emit (Log INFO (Retrying name retry_delay)) w
  else emit (Log ERROR (Failed_to_process name max_retries)) w.

(** The user a document belongs to, and the documents of a collection
    that belong to other users than [uid]. *)
Definition doc_user_id (d : Document) : string :=
  match d with
  | SummaryDocument s => Summary.user_id s
  | DailyDocument dd => DailyDoc.user_id dd
  end.

Definition others (uid : string) (c : list Document) : list Document :=
  base.filter (λ d, doc_user_id d ≠ uid) c.


(** A response that carries no data: an exception, a status other than 200,
    or a body that does not decode. *)
Definition failing {C A : Type} (response : Response C A) : Prop :=
  ∀ text data, response ≠ Responds 200 text (Some data).

(** The environment of [process_account] when the fetches are the two
    functions above, applied to what the requests of each attempt do. *)
Definition http_env {C : Type} (proxies : nat → option string)
    (overview : nat → Response C (gmap string Z))
    (earnings : nat → Response C (list Raw.t)) (clock : Z) : Env :=
  {| random_proxy := proxies;
     overview_response := λ i, (fetch_overview_data (overview i)).1;
     earnings_response := λ i, (fetch_uptime_data (earnings i)).1;
     now := clock |}.

(** The waits of a cycle, and the events of its accounts. *)
Definition cycle_sleeps (t : list CycleEvent) : list Py.float :=
  omap (λ e, match e with Cycle_sleep delay => Some delay | _ => None end) t.




(** The documents of a collection that belong to the user [uid]. *)
Definition of_user (uid : string) (c : list Document) : list Document :=
  base.filter (λ d, doc_user_id d = uid) c.

(** The order of the [$sort] stage: most recent first. *)
Definition newer_first : relation Summary.t :=
  λ a b, Summary.timestamp b ≤ Summary.timestamp a.

(** The four lines printed for one row. *)
Definition row_lines (result : StatsRow.t) : list PrintedLine :=
  [Account_line (StatsRow.account_name result);
   Today_line (StatsRow.today_total_minutes result `div` 60)
     (StatsRow.today_total_minutes result `mod` 60);
   Total_line (total_formatted (StatsRow.participation_time_breakdown result));
   Blank_line].






(** A tokens file from which [load_tokens] gets no account. *)
Definition without_tokens (file : TokensFile) : Prop :=
  file = No_file ∨ file = Unloadable ∨ file = Tokens_object None
  ∨ file = Tokens_object (Some []).

(** The breakdown of [t] minutes has the right days and hours, and minutes
    that are right or one short. *)
Definition breakdown_close (t : Z) : bool :=
  let b := participation_time_breakdown t in
  (days b =? t `div` 1440) && (hours b =? (t `mod` 1440) `div` 60)
  && ((minutes b =? t `mod` 60) || (minutes b =? t `mod` 60 - 1)).

(** ** Example data *)

(** The earnings list of the specification's example: dates 01, 03, 02
    with [totalReward] 100, 250, 180. *)
Definition earnings (date : string) (total : Z) : Raw.t :=
  {| Raw.date := Some date;
     Raw.baseReward := None;
     Raw.totalReward := Some total;
     Raw.referralReward := None |}.

Definition example_earnings : list Raw.t :=
  [earnings "01" 100; earnings "03" 250; earnings "02" 180].

(** An earnings list whose second day regresses. *)
Definition regressing_earnings : list Raw.t :=
  [earnings "01" 100; earnings "02" 40; earnings "03" 70].

(** A daily record for the date 01, and a collection that already holds a
    document of that date for the user [u1], written earlier. *)
Definition example_daily (total : Z) : Daily.t :=
  {| Daily.date := Some "01";
     Daily.daily_base_minutes := 0;
     Daily.daily_total_minutes := total;
     Daily.daily_referral_minutes := 0;
     Daily.daily_base_hours := Py.round2 (Py.int_truediv 0 60);
     Daily.daily_total_hours := Py.round2 (Py.int_truediv total 60);
     Daily.cumulative_base_minutes := 0;
     Daily.cumulative_total_minutes := total;
     Daily.cumulative_referral_minutes := 0 |}.

Definition example_collection : list Document :=
  [DailyDocument (daily_doc 1 "Account 1" "u1" "pk" (example_daily 90))].

(** The overview of the specification's example. *)
Definition example_overview : gmap string Z :=
  {[ "allTimeTotalReward" := 1500 ]}.

Definition empty_world : World := {| collection := []; trace := [] |}.

(** A complete account, and one without its public key. *)
Definition example_account : Account.t :=
  {| Account.name := Some "Account 1";
     Account.jwt_token := Some "token";
     Account.user_id := Some "u1";
     Account.pubkey := Some "pk" |}.

Definition account_without_pubkey : Account.t :=
  {| Account.name := Some "Account 1";
     Account.jwt_token := Some "token";
     Account.user_id := Some "u1";
     Account.pubkey := None |}.

(** Both fetches fail at the first two attempts; the third returns the
    example overview. *)
Definition third_time_lucky : Env :=
  {| random_proxy := λ _, None;
     overview_response :=
       λ i, if decide (i = 2%nat) then Some example_overview else None;
     earnings_response := λ _, None;
     now := 7 |}.

(** The answer to a request made with an expired token. *)
Definition expired_token {A : Type} : Response Ascii.ascii A :=
  Responds 401 [] None.

(** A cycle over two accounts, the second without its public key; every
    wait between accounts lasts 7 seconds. *)
Definition example_tokens : list Account.t :=
  [example_account; account_without_pubkey].

Definition example_cycle_env : CycleEnv :=
  {| account_env := λ _, third_time_lucky;
     pacing_delay := λ _, Py.float_of_int 7 |}.

Definition empty_cycle_world : CycleWorld :=
  {| cycle_collection := []; cycle_trace := [] |}.

(** A collection with one summary, of a user with 125 minutes today. *)
Definition example_summaries : list Document :=
  [SummaryDocument
     (summary_doc 7 {[ "todayTotalReward" := 125 ]} "Account 1" "u1" "pk"
        [])].

(** ** [sorted] is the stable sort *)

Section SortedFacts.
Context {A : Type} (key : A → string).

Lemma insert_by_perm (x : A) (l : list A) : Py.insert_by key x l ≡ₚ x :: l.
Proof.
  induction l as [|y l IH]; simpl; [done|].
  destruct (String.leb (key x) (key y)); [done|].
  rewrite IH. apply Permutation_swap.
Qed.

Lemma sorted_perm (l : list A) : Py.sorted key l ≡ₚ l.
Proof.
  induction l as [|x l IH]; simpl; [done|].
  by rewrite insert_by_perm, IH.
Qed.

Lemma sorted_length (l : list A) : length (Py.sorted key l) = length l.
Proof. by rewrite sorted_perm. Qed.

Lemma by_key_total (a b : A) : by_key key a b ∨ by_key key b a.
Proof. unfold by_key. destruct (total String.le (key a) (key b)); auto. Qed.

#[local] Instance by_key_trans : Transitive (by_key key).
Proof. intros a b c. unfold by_key. apply transitivity. Qed.

Lemma by_key_leb (a b : A) :
  by_key key a b ↔ String.leb (key a) (key b) = true.
Proof. unfold by_key, String.le. apply Is_true_true. Qed.

Lemma insert_by_HdRel (a x : A) (l : list A) :
  by_key key a x → HdRel (by_key key) a l →
  HdRel (by_key key) a (Py.insert_by key x l).
Proof.
  intros Hax Hal. destruct l as [|y l]; simpl; [by constructor|].
  destruct (String.leb (key x) (key y)); constructor; [done|].
  by inv Hal.
Qed.

Lemma insert_by_Sorted (x : A) (l : list A) :
  Sorted (by_key key) l → Sorted (by_key key) (Py.insert_by key x l).
Proof.
  induction 1 as [|y l Hl IH Hy]; simpl; [by repeat constructor|].
  destruct (String.leb (key x) (key y)) eqn:E.
  - constructor; [by constructor|]. constructor. by apply by_key_leb.
  - constructor; [done|]. apply insert_by_HdRel; [|done].
    destruct (by_key_total x y) as [H|H]; [|done].
    apply by_key_leb in H. congruence.
Qed.

Lemma sorted_Sorted (l : list A) : Sorted (by_key key) (Py.sorted key l).
Proof.
  induction l as [|x l IH]; simpl; [constructor|].
  by apply insert_by_Sorted.
Qed.

Lemma sorted_StronglySorted (l : list A) :
  StronglySorted (by_key key) (Py.sorted key l).
Proof. apply Sorted_StronglySorted; [apply _|apply sorted_Sorted]. Qed.

Lemma with_key_insert_by (k : string) (x : A) (l : list A) :
  with_key key k (Py.insert_by key x l) = with_key key k (x :: l).
Proof.
  unfold with_key. induction l as [|y l IH]; simpl; [done|].
  destruct (String.leb (key x) (key y)) eqn:E; [done|].
  rewrite !filter_cons in *. rewrite IH.
  destruct (decide (key x = k)) as [Hx|Hx],
    (decide (key y = k)) as [Hy|Hy]; try done.
  exfalso. rewrite Hx, Hy in E.
  assert (String.le k k) as H by done. apply Is_true_true in H.
  unfold String.le in *. congruence.
Qed.

(** Stability: records with equal keys keep their relative order. *)
Lemma sorted_stable (k : string) (l : list A) :
  with_key key k (Py.sorted key l) = with_key key k l.
Proof.
  induction l as [|x l IH]; simpl; [done|].
  rewrite with_key_insert_by. unfold with_key in *.
  by rewrite !filter_cons, IH.
Qed.

Lemma with_key_elem_of (x : A) (l : list A) :
  x ∈ l ↔ x ∈ with_key key (key x) l.
Proof.
  unfold with_key. rewrite list_elem_of_filter.
  split; [by split|by intros [_ ?]].
Qed.

(** Two lists in key order with the same records under every key are the
    same list. *)
Lemma stable_sorted_eq (l1 l2 : list A) :
  StronglySorted (by_key key) l1 → StronglySorted (by_key key) l2 →
  (∀ k, with_key key k l1 = with_key key k l2) → l1 = l2.
Proof.
  intros H1. revert l2.
  induction H1 as [|x l1 Hl1 IH Hx]; intros l2 H2 Heq.
  - destruct l2 as [|y l2]; [done|].
    specialize (Heq (key y)). unfold with_key in Heq.
    rewrite filter_cons in Heq. by destruct (decide (key y = key y)).
  - destruct H2 as [|y l2 Hl2 Hy].
    { specialize (Heq (key x)). unfold with_key in Heq.
      rewrite filter_cons in Heq. by destruct (decide (key x = key x)). }
    assert (key x = key y) as Hk.
    { apply (anti_symm String.le).
      - assert (y ∈ x :: l1) as Hin.
        { apply with_key_elem_of. rewrite Heq.
          apply (proj1 (with_key_elem_of y (y :: l2))). by left. }
        inv Hin; [done|]. rewrite Forall_forall in Hx. by apply Hx.
      - assert (x ∈ y :: l2) as Hin.
        { apply with_key_elem_of. rewrite <-Heq.
          apply (proj1 (with_key_elem_of x (x :: l1))). by left. }
        inv Hin; [done|]. rewrite Forall_forall in Hy. by apply Hy. }
    assert (x = y) as ->.
    { specialize (Heq (key x)). unfold with_key in Heq.
      rewrite !filter_cons in Heq.
      destruct (decide (key x = key x)); [|done].
      destruct (decide (key y = key x)); [|congruence].
      congruence. }
    f_equal. apply IH; [done|]. intros k. specialize (Heq k).
    unfold with_key in *. rewrite !filter_cons in Heq.
    destruct (decide (key y = k)); congruence.
Qed.

(** Any stable sort by [key] returns what [sorted] returns. *)
Lemma sorted_unique (l l' : list A) :
  Sorted (by_key key) l' →
  (∀ k, with_key key k l' = with_key key k l) →
  l' = Py.sorted key l.
Proof.
  intros Hs Hst. apply stable_sorted_eq.
  - by apply Sorted_StronglySorted; [apply _|].
  - apply sorted_StronglySorted.
  - intros k. by rewrite Hst, sorted_stable.
Qed.

(** With pairwise distinct keys the result depends on the records only, not
    on their order. *)
Lemma sorted_perm_eq (l1 l2 : list A) :
  l1 ≡ₚ l2 → NoDup (key <$> l1) →
  Py.sorted key l1 = Py.sorted key l2.
Proof.
  intros Hp Hnd.
  apply (StronglySorted_unique_strong (by_key key));
    [|apply sorted_StronglySorted..|by rewrite !sorted_perm].
  intros x1 x2 Hx1 Hx2 H12 H21.
  assert (key x1 = key x2) as Hk by (by apply (anti_symm String.le)).
  rewrite sorted_perm in Hx1. rewrite sorted_perm, <-Hp in Hx2.
  apply list_elem_of_lookup in Hx1 as [i Hi], Hx2 as [j Hj].
  assert (i = j) as ->; [|congruence].
  eapply NoDup_lookup; [done|by rewrite list_lookup_fmap, Hi|].
  by rewrite list_lookup_fmap, Hj, Hk.
Qed.

End SortedFacts.

(** ** The delta loop, counter by counter *)

Lemma daily_loop_length (l : list Raw.t) (pb pt pr : Z) :
  length (daily_loop l pb pt pr) = length l.
Proof.
  revert pb pt pr. induction l as [|r l IH]; intros; simpl; [done|].
  by rewrite IH.
Qed.

(** Every output record carries the date and the cumulative counters of
    the input record at the same position. *)
Lemma daily_loop_Forall2 (l : list Raw.t) (pb pt pr : Z) :
  Forall2
    (λ r d, Daily.date d = Raw.date r
            ∧ ∀ c, cumulative_minutes c d = current c r)
    l (daily_loop l pb pt pr).
Proof.
  revert pb pt pr. induction l as [|r l IH]; intros; simpl; constructor.
  - split; [done|]. by intros [].
  - apply IH.
Qed.

(** The first delta is taken against the incoming [prev_*]. *)
Lemma daily_loop_head (c : Counter) (r : Raw.t) (l : list Raw.t)
    (pb pt pr : Z) :
  ∃ d, daily_loop (r :: l) pb pt pr !! 0%nat = Some d
       ∧ daily_minutes c d = Z.max 0 (current c r - prev_of c pb pt pr).
Proof. simpl. eexists; split; [done|]. by destruct c. Qed.

(** Every later delta is taken against the record just before, whatever
    that record's own delta was. *)
Lemma daily_loop_next (c : Counter) (l : list Raw.t) (pb pt pr : Z)
    (i : nat) (p r : Raw.t) :
  l !! i = Some p → l !! S i = Some r →
  ∃ d, daily_loop l pb pt pr !! S i = Some d
       ∧ daily_minutes c d = Z.max 0 (current c r - current c p).
Proof.
  revert pb pt pr i. induction l as [|x l IH]; intros pb pt pr i Hp Hr.
  { done. }
  destruct i as [|i]; simpl in *.
  - injection Hp as ->. destruct l as [|y l]; [done|].
    injection Hr as ->.
    apply (daily_loop_head c r l).
  - by apply IH.
Qed.

Lemma daily_loop_nonneg (c : Counter) (l : list Raw.t) (pb pt pr : Z) :
  Forall (λ d, 0 ≤ daily_minutes c d) (daily_loop l pb pt pr).
Proof.
  revert pb pt pr. induction l as [|r l IH]; intros; simpl; constructor.
  - destruct c; simpl; lia.
  - apply IH.
Qed.

Lemma prev_of_current (c : Counter) (r : Raw.t) :
  prev_of c (current Base r) (current Total r) (current Referral r)
  = current c r.
Proof. by destruct c. Qed.

Lemma deltas_daily_loop_cons (c : Counter) (r : Raw.t) (l : list Raw.t)
    (pb pt pr : Z) :
  deltas c (daily_loop (r :: l) pb pt pr)
  = Z.max 0 (current c r - prev_of c pb pt pr)
    :: deltas c (daily_loop l (current Base r) (current Total r)
                   (current Referral r)).
Proof. by destruct c. Qed.

Lemma sumZ_cons (x : Z) (l : list Z) : sumZ (x :: l) = x + sumZ l.
Proof. done. Qed.

Lemma last_cons_default {A : Type} (r x : A) (l : list A) :
  default r (last (x :: l)) = default x (last l).
Proof.
  revert r x. induction l as [|y l IH]; intros r x; [done|].
  change (last (x :: y :: l)) with (last (y :: l)).
  by rewrite (IH r y), (IH x y).
Qed.

(** Over non-decreasing counters the deltas after the first telescope. *)
Lemma daily_loop_sum (c : Counter) (r : Raw.t) (l : list Raw.t)
    (pb pt pr : Z) :
  non_decreasing (counters c (r :: l)) →
  sumZ (deltas c (daily_loop (r :: l) pb pt pr))
  = Z.max 0 (current c r - prev_of c pb pt pr)
    + (current c (default r (last l)) - current c r).
Proof.
  revert r pb pt pr. induction l as [|x l IH]; intros r pb pt pr Hs.
  - rewrite deltas_daily_loop_cons. simpl. lia.
  - inv Hs. match goal with H : HdRel _ _ _ |- _ => inv H end.
    rewrite deltas_daily_loop_cons, sumZ_cons.
    rewrite IH, prev_of_current, last_cons_default by done. lia.
Qed.

Lemma calculate_daily_uptime_loop (l : list Raw.t) (uid : string) :
  calculate_daily_uptime l uid
  = daily_loop (Py.sorted date_key l) 0 0 0.
Proof. by destruct l. Qed.

(** ** Properties of [calculate_daily_uptime] *)

(** C1 (as the code has it).  When the counters of the records, taken in
    date order, never decrease, the deltas of a counter sum to the first
    delta, [max(0, c_1)] against the initial baseline 0, plus [c_n - c_1]:
    that is [c_n] for non-negative counters. *)
Theorem deltas_sum_non_decreasing (c : Counter) (l : list Raw.t)
    (uid : string) (first : Raw.t) (rest : list Raw.t) :
  Py.sorted date_key l = first :: rest →
  non_decreasing (counters c (first :: rest)) →
  sumZ (deltas c (calculate_daily_uptime l uid))
  = Z.max 0 (current c first)
    + (current c (default first (last rest)) - current c first).
Proof.
  intros Hs Hnd. rewrite calculate_daily_uptime_loop, Hs.
  rewrite daily_loop_sum by done.
  replace (prev_of c 0 0 0) with 0 by (by destruct c).
  by rewrite Z.sub_0_r.
Qed.

Lemma deltas_sum_non_decreasing_witness :
  sumZ (deltas Total (calculate_daily_uptime example_earnings "u")) = 250.
Proof.
  apply (deltas_sum_non_decreasing Total example_earnings "u"
           (earnings "01" 100) [earnings "02" 180; earnings "03" 250]).
  - reflexivity.
  - repeat constructor; simpl; lia.
Defined.

(** C1 as stated fails on the specification's own example: the counters
    100, 180, 250 do not decrease, [c_n - c_1] is 150, and the deltas
    100, 80, 70 sum to 250. *)
Lemma deltas_sum_is_not_last_minus_first :
  Py.sorted date_key example_earnings
  = [earnings "01" 100; earnings "02" 180; earnings "03" 250]
  ∧ non_decreasing (counters Total (Py.sorted date_key example_earnings))
  ∧ deltas Total (calculate_daily_uptime example_earnings "u")
    = [100; 80; 70]
  ∧ sumZ (deltas Total (calculate_daily_uptime example_earnings "u"))
    ≠ current Total (earnings "03" 250) - current Total (earnings "01" 100).
Proof.
  split; [reflexivity|]. split; [repeat constructor; simpl; lia|].
  split; [reflexivity|]. vm_compute. discriminate.
Qed.

(** C2.  A record whose counter is below that of the record before it in
    date order gets the delta 0; the record after it is measured against
    the regressed value; and no delta is negative. *)
Theorem regression_gives_zero_and_moves_baseline (c : Counter)
    (l : list Raw.t) (uid : string) (i : nat) (before regressed : Raw.t) :
  Py.sorted date_key l !! i = Some before →
  Py.sorted date_key l !! S i = Some regressed →
  current c regressed < current c before →
  (∃ d, calculate_daily_uptime l uid !! S i = Some d
        ∧ daily_minutes c d = 0)
  ∧ (∀ next, Py.sorted date_key l !! S (S i) = Some next →
       ∃ d, calculate_daily_uptime l uid !! S (S i) = Some d
            ∧ daily_minutes c d
              = Z.max 0 (current c next - current c regressed))
  ∧ Forall (λ d, 0 ≤ daily_minutes c d) (calculate_daily_uptime l uid).
Proof.
  intros Hb Hr Hlt. rewrite calculate_daily_uptime_loop.
  split; [|split].
  - destruct (daily_loop_next c _ 0 0 0 i before regressed Hb Hr)
      as (d & Hd & Hm).
    exists d. split; [done|]. lia.
  - intros next Hn. by apply (daily_loop_next c _ 0 0 0 (S i) regressed).
  - apply daily_loop_nonneg.
Qed.

Lemma regression_gives_zero_and_moves_baseline_witness :
  (∃ d, calculate_daily_uptime regressing_earnings "u" !! 1%nat = Some d
        ∧ daily_minutes Total d = 0)
  ∧ (∀ next,
       Py.sorted date_key regressing_earnings !! 2%nat = Some next →
       ∃ d, calculate_daily_uptime regressing_earnings "u" !! 2%nat = Some d
            ∧ daily_minutes Total d
              = Z.max 0 (current Total next
                         - current Total (earnings "02" 40)))
  ∧ Forall (λ d, 0 ≤ daily_minutes Total d)
      (calculate_daily_uptime regressing_earnings "u").
Proof.
  apply (regression_gives_zero_and_moves_baseline Total regressing_earnings
           "u" 0 (earnings "01" 100) (earnings "02" 40)).
  - reflexivity.
  - reflexivity.
  - simpl. lia.
Defined.

(** C3.  The records are processed in the order of a stable sort by date:
    the sorted list is a rearrangement of the input, ascending by key, with
    the records of each date in their input order; the output has, position
    by position, the date and the cumulative counters of the sorted
    records, so one output record per input record, duplicates included;
    and the empty input gives the empty output. *)
Theorem calculate_daily_uptime_follows_stable_sort (l : list Raw.t)
    (uid : string) :
  Py.sorted date_key l ≡ₚ l
  ∧ Sorted (by_key date_key) (Py.sorted date_key l)
  ∧ (∀ k, with_key date_key k (Py.sorted date_key l)
          = with_key date_key k l)
  ∧ Forall2
      (λ r d, Daily.date d = Raw.date r
              ∧ ∀ c, cumulative_minutes c d = current c r)
      (Py.sorted date_key l) (calculate_daily_uptime l uid)
  ∧ length (calculate_daily_uptime l uid) = length l
  ∧ calculate_daily_uptime [] uid = [].
Proof.
  rewrite calculate_daily_uptime_loop.
  split; [apply sorted_perm|]. split; [apply sorted_Sorted|].
  split; [intros k; apply sorted_stable|].
  split; [apply daily_loop_Forall2|].
  split; [|done]. by rewrite daily_loop_length, sorted_length.
Qed.

(** When every record has a date, distinct dates are distinct sort keys. *)
Lemma date_key_NoDup (l : list Raw.t) :
  Forall (λ r, is_Some (Raw.date r)) l →
  NoDup (Raw.date <$> l) → NoDup (date_key <$> l).
Proof.
  intros Hall Hnd. apply (NoDup_fmap_1 Some).
  replace (Some <$> (date_key <$> l)) with (Raw.date <$> l); [done|].
  clear Hnd. induction Hall as [|r l [d Hd] _ IH]; [done|].
  rewrite !fmap_cons. f_equal; [|exact IH].
  unfold date_key. by rewrite Hd.
Qed.

(** C4.  Two inputs with the same records in different orders, no two
    records under the same date, give the same output. *)
Theorem calculate_daily_uptime_order_independent (l1 l2 : list Raw.t)
    (uid : string) :
  l1 ≡ₚ l2 → NoDup (date_key <$> l1) →
  calculate_daily_uptime l1 uid = calculate_daily_uptime l2 uid.
Proof.
  intros Hp Hnd. rewrite !calculate_daily_uptime_loop.
  by rewrite (sorted_perm_eq date_key l1 l2).
Qed.

Lemma calculate_daily_uptime_order_independent_witness :
  calculate_daily_uptime example_earnings "u"
  = calculate_daily_uptime
      [earnings "03" 250; earnings "01" 100; earnings "02" 180] "u".
Proof.
  apply calculate_daily_uptime_order_independent.
  - apply Permutation_swap.
  - apply (bool_decide_unpack _). vm_compute. exact I.
Defined.

(** ** The time breakdown *)

(** The specification's example: 1500 minutes are 1 day, 1 hour and
    0 minutes. *)
Lemma participation_time_breakdown_1500 :
  participation_time_breakdown 1500
  = {| days := 1; hours := 1; minutes := 0;
       total_formatted := "1 days, 1 hours, 0 minutes" |}.
Proof. vm_compute. reflexivity. Qed.

(** C5 at 61 minutes.  [61 / 60] is the float 1.0166666666666666; taking
    the hour off leaves 0.016666666666666607, and sixty times that is
    0.9999999999999964, which [int] truncates to 0: the breakdown reads
    0 days, 1 hour, 0 minutes where [61 mod 60] is 1. *)
Theorem participation_time_breakdown_61 :
  participation_time_breakdown 61
  = {| days := 0; hours := 1; minutes := 0;
       total_formatted := "0 days, 1 hours, 0 minutes" |}
  ∧ 61 `div` 1440 = 0 ∧ (61 `mod` 1440) `div` 60 = 1 ∧ 61 `mod` 60 = 1.
Proof. vm_compute. repeat split. Qed.

(** ** [replace_one] *)

Lemma matching_cons (f : Document → bool) (d : Document)
    (c : list Document) :
  matching f (d :: c) = if f d then d :: matching f c else matching f c.
Proof.
  unfold matching. rewrite filter_cons.
  destruct (decide (Is_true (f d))) as [H|H]; destruct (f d); simpl in *;
    done.
Qed.

Section ReplaceOne.
Context (filter : Document → bool) (doc : Document).

Lemma replace_one_matched_count (upsert : bool) (c : list Document) :
  (replace_one filter doc upsert c).2
  = if decide (matching filter c = []) then 0 else 1.
Proof.
  induction c as [|d c IH]; simpl; [done|].
  rewrite matching_cons. destruct (filter d) eqn:E; simpl; [done|].
  by destruct (replace_one filter doc upsert c).
Qed.

(** The replacement is stored as it is; documents the filter does not
    select are kept. *)
Lemma replace_one_elem_of (c : list Document) :
  doc ∈ (replace_one filter doc true c).1.
Proof.
  induction c as [|d c IH]; simpl; [by left|].
  destruct (filter d); simpl; [by left|].
  destruct (replace_one filter doc true c). simpl in *. by right.
Qed.

Lemma replace_one_keeps (other : Document) (c : list Document) :
  filter other = false → other ∈ c →
  other ∈ (replace_one filter doc true c).1.
Proof.
  intros Ho. induction c as [|d c IH]; intros Hin; simpl; [by inv Hin|].
  destruct (filter d) eqn:E; simpl.
  - inv Hin; [congruence|by right].
  - destruct (replace_one filter doc true c). simpl in *.
    inv Hin; [by left|right; auto].
Qed.

Hypothesis filter_doc : filter doc = true.

(** A second application finds the replacement where the first put it. *)
Lemma replace_one_idempotent (c : list Document) :
  replace_one filter doc true (replace_one filter doc true c).1
  = ((replace_one filter doc true c).1, 1).
Proof.
  induction c as [|d c IH]; simpl.
  - by rewrite filter_doc.
  - destruct (filter d) eqn:E; simpl.
    + by rewrite filter_doc.
    + destruct (replace_one filter doc true c) as [c' n]. simpl in *.
      by rewrite E, IH.
Qed.

Lemma replace_one_matching (c : list Document) :
  (length (matching filter c) ≤ 1)%nat →
  matching filter (replace_one filter doc true c).1 = [doc].
Proof.
  induction c as [|d c IH]; simpl; intros Hlen.
  - by rewrite matching_cons, filter_doc.
  - rewrite matching_cons in Hlen. destruct (filter d) eqn:E; simpl.
    + rewrite matching_cons, filter_doc. f_equal.
      apply nil_length_inv. simpl in Hlen. lia.
    + destruct (replace_one filter doc true c) as [c' n]. simpl in *.
      rewrite matching_cons, E. auto.
Qed.

End ReplaceOne.

(** ** The unique indexes *)

Lemma summary_filter_key (u : string) (d : Document) :
  summary_filter u d = true ↔ summary_key d = Some u.
Proof.
  destruct d as [s|dd]; simpl; [|done].
  rewrite bool_decide_eq_true. split; congruence.
Qed.

Lemma daily_filter_key (u : string) (date : option string) (d : Document) :
  daily_filter u date d = true ↔ daily_key d = Some (u, date).
Proof.
  destruct d as [s|dd]; simpl; [done|].
  rewrite andb_true_iff, !bool_decide_eq_true. split.
  - by intros [-> ->].
  - intros [= -> ->]. done.
Qed.

Section KeyedReplace.
Context {K : Type} (key : Document → option K) (filter : Document → bool).
Context (k : K) (doc : Document).
Hypothesis filter_key : ∀ d, filter d = true ↔ key d = Some k.
Hypothesis key_doc : key doc = Some k.

Lemma matching_not_elem_of (c : list Document) :
  k ∉ omap key c → matching filter c = [].
Proof.
  induction c as [|d c IH]; intros Hk; [done|].
  rewrite matching_cons. simpl in Hk.
  destruct (filter d) eqn:E.
  - apply filter_key in E. rewrite E in Hk. by destruct Hk; left.
  - apply IH. destruct (key d); [|done]. by apply not_elem_of_cons in Hk as [].
Qed.

Lemma matching_length_unique (c : list Document) :
  NoDup (omap key c) → (length (matching filter c) ≤ 1)%nat.
Proof.
  induction c as [|d c IH]; intros Hnd; [simpl; lia|].
  rewrite matching_cons. simpl in Hnd. destruct (filter d) eqn:E.
  - apply filter_key in E. rewrite E in Hnd.
    apply NoDup_cons in Hnd as [Hk _].
    by rewrite (matching_not_elem_of c Hk).
  - apply IH. destruct (key d); [|done]. by apply NoDup_cons in Hnd as [].
Qed.

Lemma replace_one_keys (c : list Document) :
  omap key (replace_one filter doc true c).1
  = omap key c ++ (if decide (matching filter c = []) then [k] else []).
Proof.
  induction c as [|d c IH]; simpl.
  - by rewrite key_doc.
  - rewrite matching_cons. destruct (filter d) eqn:E; simpl.
    + apply filter_key in E. rewrite key_doc, E. simpl.
      by rewrite app_nil_r.
    + destruct (replace_one filter doc true c) as [c' n]. simpl in *.
      change (list_omap _ _ key) with (omap (M:=list) key).
      destruct (key d); simpl; by rewrite IH.
Qed.

Lemma matching_elem_of (c : list Document) :
  k ∈ omap key c → matching filter c ≠ [].
Proof.
  induction c as [|d c IH]; simpl; intros Hk; [by inv Hk|].
  rewrite matching_cons. destruct (filter d) eqn:E; [done|].
  apply IH. destruct (key d) as [k'|] eqn:Ek; [|done].
  inv Hk; [|done]. apply filter_key in Ek. congruence.
Qed.

Lemma replace_one_keys_NoDup (c : list Document) :
  NoDup (omap key c) → NoDup (omap key (replace_one filter doc true c).1).
Proof.
  intros Hnd. rewrite replace_one_keys. case_decide as Hm.
  - apply NoDup_app. split; [done|]. split; [|apply NoDup_singleton].
    intros x Hx ->%list_elem_of_singleton.
    by apply matching_elem_of in Hx.
  - by rewrite app_nil_r.
Qed.

End KeyedReplace.

(** A key that neither the selected documents nor the replacement have is
    left as it is. *)
Lemma replace_one_other_keys {K : Type} (key : Document → option K)
    (filter : Document → bool) (doc : Document) (c : list Document) :
  (∀ d, filter d = true → key d = None) → key doc = None →
  omap key (replace_one filter doc true c).1 = omap key c.
Proof.
  intros Hf Hdoc. induction c as [|d c IH]; simpl.
  - by rewrite Hdoc.
  - destruct (filter d) eqn:E; simpl.
    + by rewrite Hdoc, (Hf d E).
    + destruct (replace_one filter doc true c) as [c' n]. simpl in *.
      change (list_omap _ _ key) with (omap (M:=list) key).
      by rewrite IH.
Qed.

Lemma unique_index_nil : unique_index [].
Proof. split; constructor. Qed.

Lemma upsert_daily_unique_index (ts : Z) (name uid pk : string)
    (rec : Daily.t) (c : list Document) :
  unique_index c → unique_index (upsert_daily ts name uid pk rec c).1.
Proof.
  intros [Hs Hd]. unfold upsert_daily. split.
  - rewrite replace_one_other_keys; [done| |done].
    by intros [s|dd].
  - apply (replace_one_keys_NoDup _ _ (uid, Daily.date rec)); [|done..].
    apply daily_filter_key.
Qed.

Lemma save_daily_records_unique_index (ts : Z) (name uid pk : string)
    (records : list Daily.t) (saved updated : Z) (c : list Document) :
  unique_index c →
  unique_index
    (save_daily_records ts name uid pk records saved updated c).1.1.
Proof.
  revert saved updated c.
  induction records as [|rec records IH]; intros saved updated c Hc; simpl;
    [done|].
  pose proof (upsert_daily_unique_index ts name uid pk rec c Hc) as Hc'.
  destruct (upsert_daily ts name uid pk rec c) as [c' n]. simpl in *.
  destruct (0 <? n); by apply IH.
Qed.

Lemma replace_summary_unique_index (uid : string) (doc : Summary.t)
    (c : list Document) :
  Summary.user_id doc = uid → unique_index c →
  unique_index
    (replace_one (summary_filter uid) (SummaryDocument doc) true c).1.
Proof.
  intros Hu [Hs Hd]. split.
  - apply (replace_one_keys_NoDup _ _ uid); [|by simpl; f_equal|done].
    apply summary_filter_key.
  - rewrite replace_one_other_keys; [done| |done].
    intros [s|dd]; [done|]. simpl. done.
Qed.

(** ** Upserts *)

Lemma daily_doc_matches (ts : Z) (name uid pk : string) (rec : Daily.t) :
  daily_filter uid (Daily.date rec)
    (DailyDocument (daily_doc ts name uid pk rec)) = true.
Proof. by apply daily_filter_key. Qed.

(** C7.  In a collection that respects the unique indexes, the daily upsert
    leaves exactly one document under its key, the document handed in,
    whatever was stored under that key before; applying it a second time
    with the same document changes nothing. *)
Theorem upsert_daily_idempotent (ts : Z) (name uid pk : string)
    (rec : Daily.t) (c : list Document) :
  unique_index c →
  let doc := DailyDocument (daily_doc ts name uid pk rec) in
  let once := (upsert_daily ts name uid pk rec c).1 in
  let twice := (upsert_daily ts name uid pk rec once).1 in
  twice = once
  ∧ matching (daily_filter uid (Daily.date rec)) once = [doc]
  ∧ matching (daily_filter uid (Daily.date rec)) twice = [doc]
  ∧ unique_index twice.
Proof.
  intros Hc doc once twice.
  assert (twice = once) as Heq.
  { unfold twice, once, upsert_daily.
    by rewrite replace_one_idempotent by apply daily_doc_matches. }
  assert (matching (daily_filter uid (Daily.date rec)) once = [doc]) as Hm.
  { unfold once, upsert_daily.
    apply replace_one_matching; [apply daily_doc_matches|].
    destruct Hc as [_ Hd].
    apply (matching_length_unique daily_key _ (uid, Daily.date rec));
      [apply daily_filter_key|done]. }
  rewrite Heq. repeat split; try done.
  - by apply upsert_daily_unique_index.
  - by apply upsert_daily_unique_index.
Qed.

Lemma upsert_daily_idempotent_witness :
  let doc :=
    DailyDocument (daily_doc 2 "Account 1" "u1" "pk" (example_daily 120)) in
  let once :=
    (upsert_daily 2 "Account 1" "u1" "pk" (example_daily 120)
       example_collection).1 in
  let twice :=
    (upsert_daily 2 "Account 1" "u1" "pk" (example_daily 120) once).1 in
  twice = once
  ∧ matching (daily_filter "u1" (Some "01")) once = [doc]
  ∧ matching (daily_filter "u1" (Some "01")) twice = [doc]
  ∧ unique_index twice.
Proof.
  apply (upsert_daily_idempotent 2 "Account 1" "u1" "pk" (example_daily 120)
           example_collection).
  split; apply (bool_decide_unpack _); vm_compute; exact I.
Defined.

(** ** What [save_to_database] leaves in the collection *)

Lemma emit_collection (e : Event) (w : World) :
  collection (emit e w) = collection w.
Proof. done. Qed.

(** The collection after the call: the summary upsert when the overview is
    truthy, then the daily upserts of the computed records. *)
Lemma save_to_database_collection (ts : Z) (up : option (list Raw.t))
    (ov : option (gmap string Z)) (name uid pk : string) (w : World) :
  collection (save_to_database ts up ov name uid pk w)
  = let records :=
      if Py.truthy_list up then calculate_daily_uptime (default [] up) uid
      else [] in
    let c :=
      if Py.truthy_dict ov
      then (replace_one (summary_filter uid)
              (SummaryDocument
                 (summary_doc ts (default ∅ ov) name uid pk records))
              true (collection w)).1
      else collection w in
    (save_daily_records ts name uid pk records 0 0 c).1.1.
Proof.
  unfold save_to_database.
  destruct (Py.truthy_list up) eqn:Eu, (Py.truthy_dict ov) eqn:Eo;
    cbn [negb andb]; unfold save_summary; cbn [collection emit].
  - destruct (replace_one _ _ true (collection w)) as [c n].
    destruct (calculate_daily_uptime (default [] up) uid) as [|r rs];
      [done|].
    cbn [collection emit with_collection fst].
    by destruct (save_daily_records ts name uid pk (r :: rs) 0 0 c)
      as [[c' s] u].
  - destruct (calculate_daily_uptime (default [] up) uid) as [|r rs];
      [done|].
    by destruct (save_daily_records ts name uid pk (r :: rs) 0 0
                   (collection w)) as [[c' s] u].
  - by destruct (replace_one _ _ true (collection w)) as [c n].
  - done.
Qed.

Lemma upsert_daily_summaries (ts : Z) (name uid pk : string)
    (rec : Daily.t) (c : list Document) :
  summaries (upsert_daily ts name uid pk rec c).1 = summaries c.
Proof.
  unfold summaries, upsert_daily. apply replace_one_other_keys; [|done].
  by intros [s|dd].
Qed.

Lemma save_daily_records_summaries (ts : Z) (name uid pk : string)
    (records : list Daily.t) (saved updated : Z) (c : list Document) :
  summaries (save_daily_records ts name uid pk records saved updated c).1.1
  = summaries c.
Proof.
  revert saved updated c.
  induction records as [|rec records IH]; intros saved updated c; simpl;
    [done|].
  pose proof (upsert_daily_summaries ts name uid pk rec c) as Hc.
  destruct (upsert_daily ts name uid pk rec c) as [c' n]. simpl in Hc.
  destruct (0 <? n); by rewrite IH.
Qed.

Lemma replace_summary_dailies (uid : string) (doc : Summary.t)
    (c : list Document) :
  dailies (replace_one (summary_filter uid) (SummaryDocument doc) true c).1
  = dailies c.
Proof.
  unfold dailies. apply replace_one_other_keys; [|done].
  by intros [s|dd].
Qed.

(** Upserts under other dates keep a stored document. *)
Lemma save_daily_records_keeps (ts : Z) (name uid pk : string)
    (records : list Daily.t) (saved updated : Z) (c : list Document)
    (other : Document) :
  Forall (λ r, daily_filter uid (Daily.date r) other = false) records →
  other ∈ c →
  other ∈ (save_daily_records ts name uid pk records saved updated c).1.1.
Proof.
  revert saved updated c.
  induction records as [|rec records IH]; intros saved updated c Hf Hin;
    simpl; [done|].
  inv Hf.
  pose proof (replace_one_keeps (daily_filter uid (Daily.date rec))
                (DailyDocument (daily_doc ts name uid pk rec)) other c)
    as Hk.
  unfold upsert_daily.
  destruct (replace_one _ _ true c) as [c' n]. simpl in Hk.
  destruct (0 <? n); apply IH; auto.
Qed.


(** The unique indexes hold in every collection the tracker produces
    from one where they hold, the empty collection to begin with. *)
Lemma save_to_database_unique_index (ts : Z) (up : option (list Raw.t))
    (ov : option (gmap string Z)) (name uid pk : string) (w : World) :
  unique_index (collection w) →
  unique_index (collection (save_to_database ts up ov name uid pk w)).
Proof.
  intros Hw. rewrite save_to_database_collection. cbv zeta.
  apply save_daily_records_unique_index.
  destruct (Py.truthy_dict ov); [|done].
  by apply replace_summary_unique_index.
Qed.



(** C10.  An overview that is an empty mapping is handled as an absent one:
    the collection ends up the same, with its summary documents untouched.
    An empty earnings list leaves the daily documents untouched.  With both
    inputs empty the call only logs that there is no data. *)
Theorem save_to_database_empty_inputs (ts : Z) (up : option (list Raw.t))
    (ov : option (gmap string Z)) (name uid pk : string) (w : World) :
  collection (save_to_database ts up (Some ∅) name uid pk w)
  = collection (save_to_database ts up None name uid pk w)
  ∧ summaries (collection (save_to_database ts up (Some ∅) name uid pk w))
    = summaries (collection w)
  ∧ dailies (collection (save_to_database ts (Some []) ov name uid pk w))
    = dailies (collection w)
  ∧ save_to_database ts (Some []) (Some ∅) name uid pk w
    = emit (Log WARNING (No_data name))
        (emit (Save_to_database (Some []) (Some ∅) name uid pk) w)
  ∧ collection (save_to_database ts (Some []) (Some ∅) name uid pk w)
    = collection w.
Proof.
  rewrite !save_to_database_collection. repeat split.
  - cbn [Py.truthy_dict]. cbv zeta.
    by rewrite save_daily_records_summaries.
  - cbn [Py.truthy_list save_daily_records fst]. cbv zeta.
    destruct (Py.truthy_dict ov); [apply replace_summary_dailies|done].
Qed.

(** ** [process_account] *)

Lemma calls_emit (e : Event) (w : World) :
  calls (trace (emit e w))
  = calls (trace w) ++ (if is_call e then [e] else []).
Proof.
  unfold calls, emit. cbn [trace]. rewrite filter_app. f_equal.
  rewrite filter_cons. by destruct (is_call e).
Qed.

(** [save_to_database] adds one call to the trace, its own. *)
Lemma save_to_database_calls (ts : Z) (up : option (list Raw.t))
    (ov : option (gmap string Z)) (name uid pk : string) (w : World) :
  calls (trace (save_to_database ts up ov name uid pk w))
  = calls (trace w) ++ [Save_to_database up ov name uid pk].
Proof.
  unfold save_to_database.
  set (w0 := emit (Save_to_database up ov name uid pk) w).
  assert (calls (trace w0)
          = calls (trace w) ++ [Save_to_database up ov name uid pk]) as <-
    by apply calls_emit.
  destruct (negb (Py.truthy_list up) && negb (Py.truthy_dict ov)).
  { by rewrite calls_emit, app_nil_r. }
  set (records := if Py.truthy_list up then _ else _).
  assert (calls (trace (if Py.truthy_dict ov
                        then save_summary ts (default ∅ ov) name uid pk
                               records w0
                        else w0)) = calls (trace w0)) as Hs.
  { destruct (Py.truthy_dict ov); [|done]. unfold save_summary.
    destruct (replace_one _ _ true (collection w0)) as [c n].
    by rewrite calls_emit, app_nil_r. }
  destruct records as [|r rs]; [done|].
  destruct (save_daily_records _ _ _ _ _ _ _ _) as [[c s] u].
  by rewrite calls_emit, app_nil_r.
Qed.

Lemma calls_begin_attempt (env : Env) (account : Account.t) (i : nat)
    (w : World) :
  calls (trace (begin_attempt env account i w))
  = calls (trace w) ++ attempt_calls env account i.
Proof.
  unfold begin_attempt, attempt_calls. cbv zeta. destruct i as [|i].
  - change (0 <? Z.of_nat 0) with false. cbv iota.
    rewrite !calls_emit. cbn [is_call].
    rewrite decide_True by done. by rewrite !app_nil_r, <-!app_assoc.
  - replace (0 <? Z.of_nat (S i)) with true
      by (symmetry; apply Z.ltb_lt; lia).
    rewrite !calls_emit. cbn [is_call].
    rewrite decide_False by done. by rewrite !app_nil_r, <-!app_assoc.
Qed.

Lemma collection_begin_attempt (env : Env) (account : Account.t) (i : nat)
    (w : World) :
  collection (begin_attempt env account i w) = collection w.
Proof. unfold begin_attempt. by destruct (0 <? Z.of_nat i). Qed.

Lemma calls_end_failed_attempt (account : Account.t) (i : nat) (w : World) :
  calls (trace (end_failed_attempt account i w)) = calls (trace w).
Proof.
  unfold end_failed_attempt.
  destruct (Z.of_nat i <? max_retries - 1); by rewrite calls_emit, app_nil_r.
Qed.

Lemma collection_end_failed_attempt (account : Account.t) (i : nat)
    (w : World) :
  collection (end_failed_attempt account i w) = collection w.
Proof.
  unfold end_failed_attempt. by destruct (Z.of_nat i <? max_retries - 1).
Qed.

(** One turn of the loop for a complete account. *)
Lemma attempts_cons (env : Env) (account : Account.t) (i : nat)
    (rest : list nat) (w : World) :
  complete account →
  attempts env account (i :: rest) w
  = if has_data env i
    then emit (Log INFO (Successfully_completed
                           (default "Unknown" (Account.name account))))
           (save_to_database (now env) (earnings_response env i)
              (overview_response env i)
              (default "Unknown" (Account.name account))
              (default "" (Account.user_id account))
              (default "" (Account.pubkey account))
              (begin_attempt env account i w))
    else attempts env account rest
           (end_failed_attempt account i (begin_attempt env account i w)).
Proof.
  intros (Ht & Hu & Hp). cbn [attempts]. rewrite Ht, Hu, Hp. cbn [negb orb].
  unfold has_data, begin_attempt, end_failed_attempt.
  by destruct (Py.is_not_None (overview_response env i)
               || Py.is_not_None (earnings_response env i)).
Qed.

(** The collection [save_to_database] leaves depends on the collection it
    finds, not on the trace. *)
Lemma save_to_database_collection_ext (ts : Z) (up : option (list Raw.t))
    (ov : option (gmap string Z)) (name uid pk : string) (w1 w2 : World) :
  collection w1 = collection w2 →
  collection (save_to_database ts up ov name uid pk w1)
  = collection (save_to_database ts up ov name uid pk w2).
Proof. intros H. by rewrite !save_to_database_collection, H. Qed.

(** C8.  An account lacking the token, the user id or the public key is
    skipped at the first turn of the loop: the run adds one warning to the
    trace, makes no call (no fetch, no wait, no [save_to_database]) and
    leaves the collection as it was. *)
Theorem process_account_skips_incomplete (env : Env) (account : Account.t)
    (w : World) :
  incomplete account →
  process_account env account w
  = emit (Log WARNING (Skipping (default "Unknown" (Account.name account))))
      w
  ∧ calls (trace (process_account env account w)) = calls (trace w)
  ∧ collection (process_account env account w) = collection w.
Proof.
  intros Hi.
  assert (process_account env account w
          = emit (Log WARNING
                    (Skipping (default "Unknown" (Account.name account))))
              w) as ->.
  { unfold process_account.
    change (seq 0 (Z.to_nat max_retries)) with [0; 1; 2]%nat.
    cbn [attempts]. cbv zeta.
    destruct Hi as [-> | [-> | ->]]; cbn [negb orb];
      by rewrite ?orb_true_r. }
  split; [done|]. split; [|done]. by rewrite calls_emit, app_nil_r.
Qed.

Lemma process_account_skips_incomplete_witness :
  process_account third_time_lucky account_without_pubkey empty_world
  = emit (Log WARNING (Skipping "Account 1")) empty_world
  ∧ calls
      (trace
         (process_account third_time_lucky account_without_pubkey
            empty_world))
    = calls (trace empty_world)
  ∧ collection
      (process_account third_time_lucky account_without_pubkey empty_world)
    = collection empty_world.
Proof.
  apply (process_account_skips_incomplete third_time_lucky
           account_without_pubkey empty_world).
  right. right. reflexivity.
Defined.



(** The specification's example: two attempts without data, then an
    overview at the third.  Three pairs of fetches, a wait before the
    second and the third, one call of [save_to_database], and one summary
    document in the collection. *)
Lemma third_time_lucky_run :
  calls (trace (process_account third_time_lucky example_account
                  empty_world))
  = [Fetch_overview_data "token" None; Fetch_uptime_data "token" "pk" None;
     Sleep 10;
     Fetch_overview_data "token" None; Fetch_uptime_data "token" "pk" None;
     Sleep 10;
     Fetch_overview_data "token" None; Fetch_uptime_data "token" "pk" None;
     Save_to_database None (Some example_overview) "Account 1" "u1" "pk"]
  ∧ collection (process_account third_time_lucky example_account
                  empty_world)
    = [SummaryDocument (summary_doc 7 example_overview "Account 1" "u1" "pk"
                          [])].
Proof. split; reflexivity. Qed.

(** * Further properties *)

(** ** More on [calculate_daily_uptime] *)

(** Over counters that start at or above the incoming baseline and never
    decrease, the deltas up to a record add up to that record's counter,
    less the baseline. *)
Lemma daily_loop_prefix_sum (c : Counter) (l : list Raw.t) (pb pt pr : Z)
    (i : nat) (r : Raw.t) :
  non_decreasing (prev_of c pb pt pr :: counters c l) →
  l !! i = Some r →
  sumZ (take (S i) (deltas c (daily_loop l pb pt pr)))
  = current c r - prev_of c pb pt pr.
Proof.
  revert pb pt pr i. induction l as [|x l IH]; intros pb pt pr i Hs Hi;
    [done|].
  rewrite deltas_daily_loop_cons. inv Hs.
  match goal with H : HdRel _ _ _ |- _ => inv H end.
  destruct i as [|i]; cbn [take]; rewrite sumZ_cons.
  - injection Hi as ->. rewrite take_0. change (sumZ []) with 0. lia.
  - rewrite (IH _ _ _ i) by (by rewrite ?prev_of_current).
    rewrite prev_of_current. lia.
Qed.

(** The deltas of a counter add up to at least its last value less the
    baseline, and to exactly that when, and only when, the counter starts at
    or above the baseline and never decreases: every regression makes the
    deltas overstate the counter. *)
Lemma daily_loop_sum_ge (c : Counter) (r : Raw.t) (l : list Raw.t)
    (pb pt pr : Z) :
  current c (default r (last l)) - prev_of c pb pt pr
  ≤ sumZ (deltas c (daily_loop (r :: l) pb pt pr)).
Proof.
  revert r pb pt pr. induction l as [|x l IH]; intros r pb pt pr;
    rewrite deltas_daily_loop_cons, sumZ_cons.
  - cbn. lia.
  - specialize (IH x (current Base r) (current Total r)
                  (current Referral r)).
    rewrite prev_of_current in IH. rewrite last_cons_default. lia.
Qed.

Lemma daily_loop_sum_eq_iff (c : Counter) (r : Raw.t) (l : list Raw.t)
    (pb pt pr : Z) :
  sumZ (deltas c (daily_loop (r :: l) pb pt pr))
  = current c (default r (last l)) - prev_of c pb pt pr
  ↔ non_decreasing (prev_of c pb pt pr :: counters c (r :: l)).
Proof.
  revert r pb pt pr. induction l as [|x l IH]; intros r pb pt pr;
    rewrite deltas_daily_loop_cons, sumZ_cons.
  - cbn. split.
    + intros H. repeat constructor. lia.
    + intros H. inv H.
      match goal with H : HdRel _ _ _ |- _ => inv H end. lia.
  - specialize (IH x (current Base r) (current Total r)
                  (current Referral r)).
    pose proof (daily_loop_sum_ge c x l (current Base r) (current Total r)
                  (current Referral r)) as Hge.
    rewrite prev_of_current in IH, Hge. rewrite last_cons_default.
    split.
    + intros H.
      assert (prev_of c pb pt pr ≤ current c r) by lia.
      constructor; [|by constructor]. apply IH. lia.
    + intros H. inv H.
      match goal with H : HdRel _ _ _ |- _ => inv H end.
      match goal with H : Sorted _ _ |- _ => apply IH in H end. lia.
Qed.

Lemma prev_of_zero (c : Counter) : prev_of c 0 0 0 = 0.
Proof. by destruct c. Qed.

(** X1.  When a counter is non-negative and never decreases in date order,
    the deltas up to any record add up to that record's cumulative value:
    the running sum of the daily figures gives back the cumulative
    counter. *)
Theorem deltas_prefix_sums_recover_counter (c : Counter) (l : list Raw.t)
    (uid : string) (i : nat) (r : Raw.t) :
  non_decreasing (0 :: counters c (Py.sorted date_key l)) →
  Py.sorted date_key l !! i = Some r →
  sumZ (take (S i) (deltas c (calculate_daily_uptime l uid))) = current c r.
Proof.
  intros Hs Hi. rewrite calculate_daily_uptime_loop.
  rewrite (daily_loop_prefix_sum c _ 0 0 0 i r); rewrite ?prev_of_zero;
    [lia|done..].
Qed.

Lemma deltas_prefix_sums_recover_counter_witness :
  sumZ (take 2 (deltas Total (calculate_daily_uptime example_earnings "u")))
  = current Total (earnings "02" 180).
Proof.
  apply (deltas_prefix_sums_recover_counter Total example_earnings "u" 1).
  - repeat constructor; simpl; lia.
  - reflexivity.
Defined.

(** X2.  For a non-empty input the deltas of a counter add up to at least
    the counter's value at the last date, and to exactly that value if and
    only if the counter is non-negative at the first date and never
    decreases from one date to the next. *)
Theorem deltas_sum_overstates_on_regression (c : Counter) (l : list Raw.t)
    (uid : string) (first : Raw.t) (rest : list Raw.t) :
  Py.sorted date_key l = first :: rest →
  current c (default first (last rest))
  ≤ sumZ (deltas c (calculate_daily_uptime l uid))
  ∧ (sumZ (deltas c (calculate_daily_uptime l uid))
     = current c (default first (last rest))
     ↔ non_decreasing (0 :: counters c (first :: rest))).
Proof.
  intros Hs. rewrite calculate_daily_uptime_loop, Hs.
  pose proof (daily_loop_sum_ge c first rest 0 0 0) as Hge.
  pose proof (daily_loop_sum_eq_iff c first rest 0 0 0) as Hiff.
  rewrite prev_of_zero in Hge, Hiff. rewrite Z.sub_0_r in Hge, Hiff.
  done.
Qed.

Lemma deltas_sum_overstates_on_regression_witness :
  current Total (earnings "03" 70)
  ≤ sumZ (deltas Total (calculate_daily_uptime regressing_earnings "u"))
  ∧ (sumZ (deltas Total (calculate_daily_uptime regressing_earnings "u"))
     = current Total (earnings "03" 70)
     ↔ non_decreasing
         (0 :: counters Total
                 [earnings "01" 100; earnings "02" 40; earnings "03" 70])).
Proof.
  apply (deltas_sum_overstates_on_regression Total regressing_earnings "u"
           (earnings "01" 100) [earnings "02" 40; earnings "03" 70]).
  reflexivity.
Defined.

(** A list already in key order is returned as it is. *)
Lemma sorted_of_Sorted {A : Type} (key : A → string) (l : list A) :
  Sorted (by_key key) l → Py.sorted key l = l.
Proof.
  intros Hs. symmetry. by apply sorted_unique.
Qed.

(** X3.  An input that is already ascending by date (equal dates allowed)
    is processed in its own order: the output has the dates and cumulative
    counters of the input position by position, and each record after the
    first is measured against the input record just before it. *)
Theorem calculate_daily_uptime_of_sorted_input (l : list Raw.t)
    (uid : string) :
  Sorted (by_key date_key) l →
  Forall2
    (λ r d, Daily.date d = Raw.date r
            ∧ ∀ c, cumulative_minutes c d = current c r)
    l (calculate_daily_uptime l uid)
  ∧ ∀ c i p r, l !! i = Some p → l !! S i = Some r →
      ∃ d, calculate_daily_uptime l uid !! S i = Some d
           ∧ daily_minutes c d = Z.max 0 (current c r - current c p).
Proof.
  intros Hs. rewrite calculate_daily_uptime_loop, sorted_of_Sorted by done.
  split; [apply daily_loop_Forall2|].
  intros c i p r Hp Hr. by apply (daily_loop_next c l 0 0 0 i p r).
Qed.

Lemma calculate_daily_uptime_of_sorted_input_witness :
  Forall2
    (λ r d, Daily.date d = Raw.date r
            ∧ ∀ c, cumulative_minutes c d = current c r)
    regressing_earnings (calculate_daily_uptime regressing_earnings "u")
  ∧ ∀ c i p r,
      regressing_earnings !! i = Some p →
      regressing_earnings !! S i = Some r →
      ∃ d, calculate_daily_uptime regressing_earnings "u" !! S i = Some d
           ∧ daily_minutes c d = Z.max 0 (current c r - current c p).
Proof.
  apply (calculate_daily_uptime_of_sorted_input regressing_earnings "u").
  repeat constructor.
Defined.

(** ** More on the upserts of [save_to_database] *)

Lemma save_summary_collection (ts : Z) (ov : gmap string Z)
    (name uid pk : string) (records : list Daily.t) (w : World) :
  collection (save_summary ts ov name uid pk records w)
  = (replace_one (summary_filter uid)
       (SummaryDocument (summary_doc ts ov name uid pk records)) true
       (collection w)).1.
Proof.
  unfold save_summary.
  by destruct (replace_one _ _ true (collection w)) as [c n].
Qed.

Lemma save_summary_trace (ts : Z) (ov : gmap string Z)
    (name uid pk : string) (records : list Daily.t) (w : World) :
  trace (save_summary ts ov name uid pk records w)
  = trace w
    ++ [Log INFO
          (Overview_summary
             (if decide (matching (summary_filter uid) (collection w) = [])
              then "Created" else "Updated")
             name (default 0 (ov !! "allTimeTotalReward"))
             (days (participation_time_breakdown
                      (default 0 (ov !! "allTimeTotalReward"))))
             (hours (participation_time_breakdown
                       (default 0 (ov !! "allTimeTotalReward"))))
             (minutes (participation_time_breakdown
                         (default 0 (ov !! "allTimeTotalReward")))))].
Proof.
  unfold save_summary.
  pose proof (replace_one_matched_count (summary_filter uid)
                (SummaryDocument (summary_doc ts ov name uid pk records))
                true (collection w)) as Hn.
  destruct (replace_one _ _ true (collection w)) as [c n]. simpl in Hn.
  subst n. cbn [trace emit with_collection]. by case_decide.
Qed.

Lemma summary_doc_matches (ts : Z) (ov : gmap string Z)
    (name uid pk : string) (records : list Daily.t) :
  summary_filter uid
    (SummaryDocument (summary_doc ts ov name uid pk records)) = true.
Proof. by apply summary_filter_key. Qed.

(** X4.  In a collection that respects the unique indexes, the summary
    upsert leaves exactly one summary document for the user, the one just
    built, whatever summary was stored before; a second identical upsert
    leaves the collection as it is and is logged as an update. *)
Theorem save_summary_idempotent (ts : Z) (ov : gmap string Z)
    (name uid pk : string) (records : list Daily.t) (w : World) :
  unique_index (collection w) →
  let doc := SummaryDocument (summary_doc ts ov name uid pk records) in
  let once := save_summary ts ov name uid pk records w in
  let twice := save_summary ts ov name uid pk records once in
  matching (summary_filter uid) (collection once) = [doc]
  ∧ collection twice = collection once
  ∧ unique_index (collection once)
  ∧ ∃ alltime d h m,
      last (trace twice)
      = Some (Log INFO (Overview_summary "Updated" name alltime d h m)).
Proof.
  intros Hw doc once twice.
  assert (matching (summary_filter uid) (collection once) = [doc]) as Hm.
  { unfold once. rewrite save_summary_collection.
    apply replace_one_matching; [apply summary_doc_matches|].
    destruct Hw as [Hs _].
    apply (matching_length_unique summary_key _ uid);
      [apply summary_filter_key|done]. }
  split; [done|]. split; [|split].
  - unfold twice, once. rewrite !save_summary_collection.
    by rewrite replace_one_idempotent by apply summary_doc_matches.
  - unfold once. rewrite save_summary_collection.
    by apply replace_summary_unique_index.
  - do 4 eexists. unfold twice. rewrite save_summary_trace, last_snoc.
    rewrite Hm. by rewrite decide_False.
Qed.

Lemma save_summary_idempotent_witness :
  let doc :=
    SummaryDocument
      (summary_doc 7 example_overview "Account 1" "u1" "pk" []) in
  let once :=
    save_summary 7 example_overview "Account 1" "u1" "pk" [] empty_world in
  let twice :=
    save_summary 7 example_overview "Account 1" "u1" "pk" [] once in
  matching (summary_filter "u1") (collection once) = [doc]
  ∧ collection twice = collection once
  ∧ unique_index (collection once)
  ∧ ∃ alltime d h m,
      last (trace twice)
      = Some (Log INFO (Overview_summary "Updated" "Account 1" alltime d h
                          m)).
Proof.
  apply (save_summary_idempotent 7 example_overview "Account 1" "u1" "pk" []
           empty_world).
  apply unique_index_nil.
Defined.

(** *** Documents of other users *)

Lemma others_cons (uid : string) (d : Document) (c : list Document) :
  others uid (d :: c)
  = if decide (doc_user_id d = uid) then others uid c
    else d :: others uid c.
Proof.
  unfold others. rewrite filter_cons.
  destruct (decide (doc_user_id d = uid)) as [E|E].
  - by rewrite decide_False by (by intros ?).
  - by rewrite decide_True.
Qed.

Lemma replace_one_others (uid : string) (filter : Document → bool)
    (doc : Document) (c : list Document) :
  (∀ d, filter d = true → doc_user_id d = uid) → doc_user_id doc = uid →
  others uid (replace_one filter doc true c).1 = others uid c.
Proof.
  intros Hf Hdoc. induction c as [|d c IH]; cbn [replace_one].
  - cbn [fst]. by rewrite others_cons, decide_True.
  - destruct (filter d) eqn:E.
    + cbn [fst]. rewrite !others_cons.
      by rewrite !decide_True by auto.
    + destruct (replace_one filter doc true c) as [c' n]. cbn [fst] in *.
      rewrite !others_cons, IH. done.
Qed.

Lemma summary_filter_user (uid : string) (d : Document) :
  summary_filter uid d = true → doc_user_id d = uid.
Proof.
  destruct d as [s|dd]; [|done]. cbn. by intros ?%bool_decide_eq_true.
Qed.

Lemma daily_filter_user (uid : string) (date : option string)
    (d : Document) :
  daily_filter uid date d = true → doc_user_id d = uid.
Proof.
  destruct d as [s|dd]; [done|]. cbn.
  by intros [?%bool_decide_eq_true _]%andb_true_iff.
Qed.

Lemma save_daily_records_others (ts : Z) (name uid pk : string)
    (records : list Daily.t) (saved updated : Z) (c : list Document) :
  others uid
    (save_daily_records ts name uid pk records saved updated c).1.1
  = others uid c.
Proof.
  revert saved updated c.
  induction records as [|rec records IH]; intros saved updated c;
    cbn [save_daily_records]; [done|].
  pose proof (replace_one_others uid
                (daily_filter uid (Daily.date rec))
                (DailyDocument (daily_doc ts name uid pk rec)) c
                (daily_filter_user uid _) eq_refl) as Hc.
  unfold upsert_daily.
  destruct (replace_one _ _ true c) as [c' n]. cbn [fst] in Hc.
  destruct (0 <? n); by rewrite IH.
Qed.

Lemma save_to_database_others (ts : Z) (up : option (list Raw.t))
    (ov : option (gmap string Z)) (name uid pk : string) (w : World) :
  others uid (collection (save_to_database ts up ov name uid pk w))
  = others uid (collection w).
Proof.
  rewrite save_to_database_collection. cbv zeta.
  rewrite save_daily_records_others.
  destruct (Py.truthy_dict ov); [|done].
  apply replace_one_others; [apply summary_filter_user|done].
Qed.

(** ** What [process_account] leaves in the collection, for any account *)

Lemma complete_or_incomplete (account : Account.t) :
  complete account ∨ incomplete account.
Proof.
  unfold complete, incomplete.
  destruct (Py.truthy_str (Account.jwt_token account)),
    (Py.truthy_str (Account.user_id account)),
    (Py.truthy_str (Account.pubkey account)); auto.
Qed.

Lemma attempts_incomplete (env : Env) (account : Account.t) (i : nat)
    (rest : list nat) (w : World) :
  incomplete account →
  attempts env account (i :: rest) w
  = emit (Log WARNING (Skipping (default "Unknown" (Account.name account))))
      w.
Proof.
  intros Hi. cbn [attempts]. cbv zeta.
  destruct Hi as [-> | [-> | ->]]; cbn [negb orb]; by rewrite ?orb_true_r.
Qed.

(** The loop either leaves the collection alone or hands it once to
    [save_to_database], with what one attempt fetched. *)
Lemma attempts_collection_cases (env : Env) (account : Account.t)
    (range : list nat) (w : World) :
  collection (attempts env account range w) = collection w
  ∨ ∃ i,
      collection (attempts env account range w)
      = collection
          (save_to_database (now env) (earnings_response env i)
             (overview_response env i)
             (default "Unknown" (Account.name account))
             (default "" (Account.user_id account))
             (default "" (Account.pubkey account)) w).
Proof.
  revert w. induction range as [|i rest IH]; intros w; [by left|].
  destruct (complete_or_incomplete account) as [Hc|Hi].
  - rewrite attempts_cons by done. destruct (has_data env i).
    + right. exists i. rewrite emit_collection.
      apply save_to_database_collection_ext, collection_begin_attempt.
    + set (w' := end_failed_attempt account i (begin_attempt env account i w)).
      assert (collection w' = collection w) as Hw'.
      { unfold w'.
        by rewrite collection_end_failed_attempt, collection_begin_attempt. }
      destruct (IH w') as [H|[j H]]; [left; congruence|].
      right. exists j. rewrite H.
      by apply save_to_database_collection_ext.
  - left. by rewrite attempts_incomplete.
Qed.

(** Whatever [save_to_database] keeps true of the collection,
    [process_account] keeps true. *)
Lemma process_account_preserves (P : list Document → Prop) (env : Env)
    (account : Account.t) (w : World) :
  (∀ ts up ov name pk w',
     P (collection w') →
     P (collection
          (save_to_database ts up ov name
             (default "" (Account.user_id account)) pk w'))) →
  P (collection w) → P (collection (process_account env account w)).
Proof.
  intros Hsave Hw. unfold process_account.
  destruct (attempts_collection_cases env account
              (seq 0 (Z.to_nat max_retries)) w) as [->|[i ->]]; [done|].
  by apply Hsave.
Qed.

(** X5.  The unique indexes are an invariant of the tracker: a run of
    [process_account], for any account and whatever the fetches return,
    keeps at most one summary document per user and at most one daily
    document per user and date. *)
Theorem process_account_unique_index (env : Env) (account : Account.t)
    (w : World) :
  unique_index (collection w) →
  unique_index (collection (process_account env account w)).
Proof.
  apply (process_account_preserves unique_index).
  intros. by apply save_to_database_unique_index.
Qed.

Lemma process_account_unique_index_witness :
  unique_index
    (collection
       (process_account third_time_lucky example_account empty_world)).
Proof.
  apply (process_account_unique_index third_time_lucky example_account
           empty_world).
  apply unique_index_nil.
Defined.

(** X6.  Processing an account leaves the documents of every other user
    exactly as they were, in content and in order. *)
Theorem process_account_leaves_other_users (env : Env)
    (account : Account.t) (w : World) :
  others (default "" (Account.user_id account))
    (collection (process_account env account w))
  = others (default "" (Account.user_id account)) (collection w).
Proof.
  apply (process_account_preserves
           (λ c, others (default "" (Account.user_id account)) c
                 = others (default "" (Account.user_id account))
                     (collection w))); [|done].
  intros ts up ov name pk w' Hw'. by rewrite save_to_database_others.
Qed.

(** ** Keys are never removed *)

Lemma length_keys (c : list Document) :
  length c
  = (length (omap summary_key c) + length (omap daily_key c))%nat.
Proof.
  induction c as [|[s|dd] c IH]; [done|..]; cbn; lia.
Qed.

Lemma dailies_length (c : list Document) :
  length (dailies c) = length (omap daily_key c).
Proof. unfold dailies. induction c as [|[s|dd] c IH]; cbn; auto. Qed.

Lemma upsert_daily_daily_keys (ts : Z) (name uid pk : string)
    (rec : Daily.t) (c : list Document) :
  omap daily_key (upsert_daily ts name uid pk rec c).1
  = omap daily_key c
    ++ (if decide (matching (daily_filter uid (Daily.date rec)) c = [])
        then [(uid, Daily.date rec)] else []).
Proof.
  unfold upsert_daily. apply replace_one_keys; [|done].
  apply daily_filter_key.
Qed.

Lemma upsert_daily_summary_keys (ts : Z) (name uid pk : string)
    (rec : Daily.t) (c : list Document) :
  omap summary_key (upsert_daily ts name uid pk rec c).1
  = omap summary_key c.
Proof.
  unfold upsert_daily. apply replace_one_other_keys; [|done].
  by intros [s|dd].
Qed.

Lemma upsert_daily_matched_count (ts : Z) (name uid pk : string)
    (rec : Daily.t) (c : list Document) :
  (upsert_daily ts name uid pk rec c).2
  = if decide (matching (daily_filter uid (Daily.date rec)) c = [])
    then 0 else 1.
Proof. apply replace_one_matched_count. Qed.

Lemma save_daily_records_summary_keys (ts : Z) (name uid pk : string)
    (records : list Daily.t) (saved updated : Z) (c : list Document) :
  omap summary_key
    (save_daily_records ts name uid pk records saved updated c).1.1
  = omap summary_key c.
Proof.
  revert saved updated c.
  induction records as [|rec records IH]; intros saved updated c;
    cbn [save_daily_records]; [done|].
  pose proof (upsert_daily_summary_keys ts name uid pk rec c) as Hc.
  destruct (upsert_daily ts name uid pk rec c) as [c' n]. cbn [fst] in Hc.
  destruct (0 <? n); by rewrite IH.
Qed.

Lemma save_daily_records_daily_keys_prefix (ts : Z) (name uid pk : string)
    (records : list Daily.t) (saved updated : Z) (c : list Document) :
  omap daily_key c
  `prefix_of`
  omap daily_key
    (save_daily_records ts name uid pk records saved updated c).1.1.
Proof.
  revert saved updated c.
  induction records as [|rec records IH]; intros saved updated c;
    cbn [save_daily_records]; [done|].
  pose proof (upsert_daily_daily_keys ts name uid pk rec c) as Hc.
  destruct (upsert_daily ts name uid pk rec c) as [c' n]. cbn [fst] in Hc.
  assert (omap daily_key c `prefix_of` omap daily_key c') as Hp
    by (rewrite Hc; apply prefix_app_r; done).
  destruct (0 <? n); (etrans; [exact Hp|apply IH]).
Qed.

Lemma replace_summary_summary_keys (uid : string) (doc : Summary.t)
    (c : list Document) :
  Summary.user_id doc = uid →
  omap summary_key
    (replace_one (summary_filter uid) (SummaryDocument doc) true c).1
  = omap summary_key c
    ++ (if decide (matching (summary_filter uid) c = []) then [uid]
        else []).
Proof.
  intros Hu. apply replace_one_keys; [apply summary_filter_key|].
  cbn. by rewrite Hu.
Qed.

Lemma replace_summary_daily_keys (uid : string) (doc : Summary.t)
    (c : list Document) :
  omap daily_key
    (replace_one (summary_filter uid) (SummaryDocument doc) true c).1
  = omap daily_key c.
Proof.
  apply replace_one_other_keys; [|done]. intros [s|dd]; [done|].
  cbn. done.
Qed.

Lemma save_to_database_keys_prefix (ts : Z) (up : option (list Raw.t))
    (ov : option (gmap string Z)) (name uid pk : string) (w : World) :
  omap summary_key (collection w)
  `prefix_of`
  omap summary_key (collection (save_to_database ts up ov name uid pk w))
  ∧ omap daily_key (collection w)
    `prefix_of`
    omap daily_key (collection (save_to_database ts up ov name uid pk w)).
Proof.
  rewrite save_to_database_collection. cbv zeta. split.
  - rewrite save_daily_records_summary_keys.
    destruct (Py.truthy_dict ov); [|done].
    rewrite replace_summary_summary_keys by done. by apply prefix_app_r.
  - etrans; [|apply save_daily_records_daily_keys_prefix].
    destruct (Py.truthy_dict ov); [|done].
    by rewrite replace_summary_daily_keys.
Qed.

(** X7.  Nothing is ever removed: after [process_account] the summary keys
    and the daily keys that were in the collection are still there, in the
    same order and before any new one, and the collection has not
    shrunk. *)
Theorem process_account_removes_nothing (env : Env) (account : Account.t)
    (w : World) :
  omap summary_key (collection w)
  `prefix_of` omap summary_key (collection (process_account env account w))
  ∧ omap daily_key (collection w)
    `prefix_of` omap daily_key (collection (process_account env account w))
  ∧ (length (collection w)
     ≤ length (collection (process_account env account w)))%nat.
Proof.
  assert (omap summary_key (collection w)
          `prefix_of`
          omap summary_key (collection (process_account env account w))
          ∧ omap daily_key (collection w)
            `prefix_of`
            omap daily_key (collection (process_account env account w)))
    as [Hs Hd].
  { apply (process_account_preserves
             (λ c, omap summary_key (collection w)
                   `prefix_of` omap summary_key c
                   ∧ omap daily_key (collection w)
                     `prefix_of` omap daily_key c)); [|done].
    intros ts up ov name pk w' [Hs Hd].
    destruct (save_to_database_keys_prefix ts up ov name
                (default "" (Account.user_id account)) pk w') as [Hs' Hd'].
    split; by etrans. }
  split; [done|]. split; [done|].
  rewrite !length_keys.
  apply prefix_length in Hs, Hd. lia.
Qed.

(** *** The two counters of the daily loop *)

Lemma save_daily_records_counts (ts : Z) (name uid pk : string)
    (records : list Daily.t) (saved updated : Z) (c : list Document) :
  let r := save_daily_records ts name uid pk records saved updated c in
  saved ≤ r.1.2 ∧ updated ≤ r.2
  ∧ r.1.2 + r.2 = saved + updated + Z.of_nat (length records)
  ∧ Z.of_nat (length (dailies r.1.1))
    = Z.of_nat (length (dailies c)) + (r.1.2 - saved).
Proof.
  revert saved updated c.
  induction records as [|rec records IH]; intros saved updated c;
    cbn [save_daily_records]; cbv zeta.
  { cbn [fst snd length]. lia. }
  pose proof (upsert_daily_daily_keys ts name uid pk rec c) as Hk.
  pose proof (upsert_daily_matched_count ts name uid pk rec c) as Hn.
  destruct (upsert_daily ts name uid pk rec c) as [c' n].
  cbn [fst snd] in Hk, Hn.
  assert (Z.of_nat (length (dailies c'))
          = Z.of_nat (length (dailies c)) + (1 - n)) as Hlen.
  { rewrite !dailies_length, Hk, length_app. subst n.
    case_decide; cbn [length]; lia. }
  assert (n = 0 ∨ n = 1) as Hn01 by (subst n; case_decide; auto).
  destruct Hn01 as [-> | ->]; cbn [Z.ltb Z.compare].
  - specialize (IH (saved + 1) updated c'). cbv zeta in IH.
    rewrite length_cons. lia.
  - specialize (IH saved (updated + 1) c'). cbv zeta in IH.
    rewrite length_cons. lia.
Qed.

Lemma calculate_daily_uptime_cons_ne (r : Raw.t) (l : list Raw.t)
    (uid : string) :
  calculate_daily_uptime (r :: l) uid ≠ [].
Proof.
  intros Hnil. pose proof (f_equal length Hnil) as Hl.
  by rewrite calculate_daily_uptime_loop, daily_loop_length, sorted_length
    in Hl.
Qed.

Lemma save_to_database_daily_log (ts : Z) (r : Raw.t) (l : list Raw.t)
    (ov : option (gmap string Z)) (name uid pk : string) (w : World) :
  ∃ c0,
    dailies c0 = dailies (collection w)
    ∧ let res :=
        save_daily_records ts name uid pk
          (calculate_daily_uptime (r :: l) uid) 0 0 c0 in
      collection (save_to_database ts (Some (r :: l)) ov name uid pk w)
      = res.1.1
      ∧ last (trace (save_to_database ts (Some (r :: l)) ov name uid pk w))
        = Some (Log INFO (Daily_uptime name res.1.2 res.2)).
Proof.
  unfold save_to_database.
  change (Py.truthy_list (Some (r :: l))) with true.
  change (default [] (Some (r :: l))) with (r :: l).
  cbn [negb andb].
  pose proof (calculate_daily_uptime_cons_ne r l uid) as Hne.
  set (w0 := emit (Save_to_database (Some (r :: l)) ov name uid pk) w).
  destruct (Py.truthy_dict ov).
  - exists (collection
              (save_summary ts (default ∅ ov) name uid pk
                 (calculate_daily_uptime (r :: l) uid) w0)).
    split.
    { rewrite save_summary_collection. apply replace_summary_dailies. }
    cbv zeta.
    destruct (calculate_daily_uptime (r :: l) uid) as [|d ds]; [done|].
    destruct (save_daily_records ts name uid pk (d :: ds) 0 0 _)
      as [[c s] u].
    split; [done|]. cbn [trace emit with_collection fst snd].
    by rewrite last_snoc.
  - exists (collection w0). split; [done|]. cbv zeta.
    destruct (calculate_daily_uptime (r :: l) uid) as [|d ds]; [done|].
    destruct (save_daily_records ts name uid pk (d :: ds) 0 0 _)
      as [[c s] u].
    split; [done|]. cbn [trace emit with_collection fst snd].
    by rewrite last_snoc.
Qed.

(** X8.  For a non-empty earnings list the closing log line of
    [save_to_database] counts right: the new and the updated documents add
    up to the number of earnings records, and the number of daily documents
    in the collection grows by the count of new ones. *)
Theorem save_to_database_daily_counts (ts : Z) (r : Raw.t) (l : list Raw.t)
    (ov : option (gmap string Z)) (name uid pk : string) (w : World) :
  ∃ saved_count updated_count,
    last (trace (save_to_database ts (Some (r :: l)) ov name uid pk w))
    = Some (Log INFO (Daily_uptime name saved_count updated_count))
    ∧ 0 ≤ saved_count ∧ 0 ≤ updated_count
    ∧ saved_count + updated_count = Z.of_nat (length (r :: l))
    ∧ Z.of_nat
        (length
           (dailies
              (collection
                 (save_to_database ts (Some (r :: l)) ov name uid pk w))))
      = Z.of_nat (length (dailies (collection w))) + saved_count.
Proof.
  destruct (save_to_database_daily_log ts r l ov name uid pk w)
    as (c0 & Hc0 & Hcol & Hlast).
  pose proof (save_daily_records_counts ts name uid pk
                (calculate_daily_uptime (r :: l) uid) 0 0 c0) as Hcnt.
  cbv zeta in Hcnt. destruct Hcnt as (Hs & Hu & Hsum & Hlen).
  eexists _, _. split; [exact Hlast|].
  rewrite Hcol, Hlen, Hc0.
  assert (length (calculate_daily_uptime (r :: l) uid) = length (r :: l))
    as Hl
    by (by rewrite calculate_daily_uptime_loop, daily_loop_length,
             sorted_length).
  rewrite Hl in Hsum. repeat split; lia.
Qed.

(** *** Running [save_to_database] again *)

Lemma daily_key_present (uid : string) (date : option string)
    (c : list Document) :
  (uid, date) ∈ omap daily_key c ↔ matching (daily_filter uid date) c ≠ [].
Proof.
  split.
  - apply (matching_elem_of daily_key _ (uid, date)
             (DailyDocument
                (daily_doc 0 "" uid ""
                   {| Daily.date := date;
                      Daily.daily_base_minutes := 0;
                      Daily.daily_total_minutes := 0;
                      Daily.daily_referral_minutes := 0;
                      Daily.daily_base_hours := S754_zero false;
                      Daily.daily_total_hours := S754_zero false;
                      Daily.cumulative_base_minutes := 0;
                      Daily.cumulative_total_minutes := 0;
                      Daily.cumulative_referral_minutes := 0 |})));
      [apply daily_filter_key|done].
  - intros Hm. destruct (decide ((uid, date) ∈ omap daily_key c)); [done|].
    destruct Hm.
    by apply (matching_not_elem_of daily_key _ (uid, date));
      [apply daily_filter_key|].
Qed.

Lemma summary_key_present (uid : string) (c : list Document) :
  uid ∈ omap summary_key c ↔ matching (summary_filter uid) c ≠ [].
Proof.
  split.
  - apply (matching_elem_of summary_key _ uid
             (SummaryDocument (summary_doc 0 ∅ "" uid "" [])));
      [apply summary_filter_key|done].
  - intros Hm. destruct (decide (uid ∈ omap summary_key c)); [done|].
    destruct Hm.
    by apply (matching_not_elem_of summary_key _ uid);
      [apply summary_filter_key|].
Qed.

Lemma upsert_daily_key_present (ts : Z) (name uid pk : string)
    (rec : Daily.t) (c : list Document) :
  (uid, Daily.date rec)
  ∈ omap daily_key (upsert_daily ts name uid pk rec c).1.
Proof.
  rewrite upsert_daily_daily_keys. apply elem_of_app. case_decide as Hm.
  - right. by left.
  - left. by apply daily_key_present.
Qed.

(** After the loop every record's key is in the collection. *)
Lemma save_daily_records_keys_present (ts : Z) (name uid pk : string)
    (records : list Daily.t) (saved updated : Z) (c : list Document) :
  Forall
    (λ r, (uid, Daily.date r)
          ∈ omap daily_key
              (save_daily_records ts name uid pk records saved updated
                 c).1.1)
    records.
Proof.
  revert saved updated c.
  induction records as [|rec records IH]; intros saved updated c;
    [constructor|].
  cbn [save_daily_records].
  pose proof (upsert_daily_key_present ts name uid pk rec c) as Hin.
  destruct (upsert_daily ts name uid pk rec c) as [c' n]. cbn [fst] in Hin.
  destruct (0 <? n).
  - constructor; [|apply IH].
    destruct (save_daily_records_daily_keys_prefix ts name uid pk records
                saved (updated + 1) c') as [k ->].
    apply elem_of_app. by left.
  - constructor; [|apply IH].
    destruct (save_daily_records_daily_keys_prefix ts name uid pk records
                (saved + 1) updated c') as [k ->].
    apply elem_of_app. by left.
Qed.

(** When every record's key is already there, the loop adds no key. *)
Lemma save_daily_records_keys_fixed (ts : Z) (name uid pk : string)
    (records : list Daily.t) (saved updated : Z) (c : list Document) :
  Forall (λ r, (uid, Daily.date r) ∈ omap daily_key c) records →
  omap daily_key
    (save_daily_records ts name uid pk records saved updated c).1.1
  = omap daily_key c.
Proof.
  revert saved updated c.
  induction records as [|rec records IH]; intros saved updated c Hall;
    [done|].
  cbn [save_daily_records]. inv Hall.
  pose proof (upsert_daily_daily_keys ts name uid pk rec c) as Hk.
  destruct (upsert_daily ts name uid pk rec c) as [c' n]. cbn [fst] in Hk.
  rewrite decide_False, app_nil_r in Hk by (by apply daily_key_present).
  destruct (0 <? n); rewrite IH by (by rewrite Hk); done.
Qed.

(** X9.  Running [save_to_database] a second time for the same user with
    the same earnings and overview, at another time and even under another
    account name or public key, creates no document: the summary keys and
    the daily keys of the collection, and its size, stay what the first run
    left. *)
Theorem save_to_database_again_creates_nothing (ts ts' : Z)
    (up : option (list Raw.t)) (ov : option (gmap string Z))
    (name name' uid pk pk' : string) (w : World) :
  let first := save_to_database ts up ov name uid pk w in
  let second := save_to_database ts' up ov name' uid pk' first in
  omap summary_key (collection second) = omap summary_key (collection first)
  ∧ omap daily_key (collection second) = omap daily_key (collection first)
  ∧ length (collection second) = length (collection first).
Proof.
  intros first second.
  assert (omap summary_key (collection second)
          = omap summary_key (collection first)
          ∧ omap daily_key (collection second)
            = omap daily_key (collection first)) as [Hs Hd].
  { unfold second. rewrite (save_to_database_collection ts').
    cbv zeta. rewrite save_daily_records_summary_keys.
    set (records :=
           if Py.truthy_list up
           then calculate_daily_uptime (default [] up) uid else []).
    assert (Forall
              (λ r, (uid, Daily.date r)
                    ∈ omap daily_key (collection first)) records) as Hall.
    { unfold first. rewrite save_to_database_collection. cbv zeta.
      apply save_daily_records_keys_present. }
    destruct (Py.truthy_dict ov) eqn:Eo.
    - split.
      + rewrite replace_summary_summary_keys by done.
        rewrite decide_False, app_nil_r; [done|].
        apply summary_key_present. unfold first.
        rewrite save_to_database_collection. cbv zeta.
        rewrite save_daily_records_summary_keys, Eo.
        rewrite replace_summary_summary_keys by done.
        apply elem_of_app. case_decide as Hm; [right; by left|left].
        by apply summary_key_present.
      + rewrite save_daily_records_keys_fixed;
          by rewrite replace_summary_daily_keys.
    - split; [done|]. by rewrite save_daily_records_keys_fixed. }
  split; [done|]. split; [done|]. by rewrite !length_keys, Hs, Hd.
Qed.

(** ** The two fetches *)



Lemma failing_fetch_overview_data {C : Type}
    (response : Response C (gmap string Z)) :
  failing response → (fetch_overview_data response).1 = None.
Proof.
  intros Hf. destruct response as [|status text [data|]];
    cbn [fetch_overview_data]; [done|..].
  - destruct (status =? 200) eqn:E; [|done].
    apply Z.eqb_eq in E as ->. by destruct (Hf text data).
  - by destruct (status =? 200).
Qed.

Lemma failing_fetch_uptime_data {C : Type}
    (response : Response C (list Raw.t)) :
  failing response → (fetch_uptime_data response).1 = None.
Proof.
  intros Hf. destruct response as [|status text [data|]];
    cbn [fetch_uptime_data]; [done|..].
  - destruct (status =? 200) eqn:E.
    + apply Z.eqb_eq in E as ->. by destruct (Hf text data).
    + by destruct (status =? 401), (status =? 403).
  - destruct (status =? 200); [done|].
    by destruct (status =? 401), (status =? 403).
Qed.

(** X12.  When, at every attempt, both requests fail (an exception, a
    status other than 200 such as 401 or 403, or an undecodable body), a
    complete account goes through its three attempts, with a wait of 10
    seconds before the second and the third, never calls
    [save_to_database], leaves the collection as it was, and ends on the
    error line "Failed to process ... after 3 attempts". *)
Theorem process_account_all_requests_failing {C : Type}
    (proxies : nat → option string)
    (overview : nat → Response C (gmap string Z))
    (earnings : nat → Response C (list Raw.t)) (clock : Z)
    (account : Account.t) (w : World) :
  complete account →
  (∀ i, failing (overview i)) → (∀ i, failing (earnings i)) →
  let env := http_env proxies overview earnings clock in
  collection (process_account env account w) = collection w
  ∧ calls (trace (process_account env account w))
    = calls (trace w)
      ++ flat_map (attempt_calls env account) [0; 1; 2]%nat
  ∧ last (trace (process_account env account w))
    = Some (Log ERROR
              (Failed_to_process (default "Unknown" (Account.name account))
                 3)).
Proof.
  intros Hc Ho He env.
  assert (∀ i, has_data env i = false) as Hno.
  { intros i. unfold has_data, env, http_env.
    cbn [overview_response earnings_response].
    by rewrite failing_fetch_overview_data, failing_fetch_uptime_data. }
  unfold process_account.
  change (seq 0 (Z.to_nat max_retries)) with [0; 1; 2]%nat.
  rewrite !(attempts_cons env account) by done. rewrite !Hno.
  cbn [attempts]. split; [|split].
  - repeat (rewrite collection_end_failed_attempt
            || rewrite collection_begin_attempt). done.
  - repeat (rewrite calls_end_failed_attempt || rewrite calls_begin_attempt).
    cbn [flat_map]. by rewrite app_nil_r, <-?app_assoc.
  - unfold end_failed_attempt at 1.
    change (Z.of_nat 2 <? max_retries - 1) with false. cbv iota.
    cbn [trace emit]. by rewrite last_snoc.
Qed.

Lemma process_account_all_requests_failing_witness :
  let env := http_env (λ _, None) (λ _, expired_token) (λ _, expired_token)
               7 in
  collection (process_account env example_account empty_world)
  = collection empty_world
  ∧ calls (trace (process_account env example_account empty_world))
    = calls (trace empty_world)
      ++ flat_map (attempt_calls env example_account) [0; 1; 2]%nat
  ∧ last (trace (process_account env example_account empty_world))
    = Some (Log ERROR
              (Failed_to_process
                 (default "Unknown" (Account.name example_account)) 3)).
Proof.
  apply (process_account_all_requests_failing (λ _, None)
           (λ _, expired_token) (λ _, expired_token) 7 example_account
           empty_world).
  - repeat split; reflexivity.
  - intros i text data. discriminate.
  - intros i text data. discriminate.
Defined.

(** ** [run_tracking_cycle] *)

(** Whatever every [process_account] keeps true of the collection, the
    cycle keeps true. *)
Lemma cycle_loop_preserves (P : list Document → Prop) (env : CycleEnv)
    (tokens : list Account.t) (i : nat) (cw : CycleWorld) :
  (∀ account, account ∈ tokens →
     ∀ e w, P (collection w) → P (collection (process_account e account w))) →
  P (cycle_collection cw) →
  P (cycle_collection (cycle_loop env i tokens cw)).
Proof.
  revert i cw. induction tokens as [|account rest IH]; intros i cw Hp Hcw;
    [done|].
  cbn [cycle_loop]. cbv zeta. apply IH.
  - intros a Ha. apply Hp. by right.
  - cbn [cycle_collection]. apply Hp; [by left|].
    cbn [collection]. by destruct (0 <? Z.of_nat i).
Qed.

Lemma run_tracking_cycle_preserves (P : list Document → Prop)
    (env : CycleEnv) (tokens : list Account.t) (cw : CycleWorld) :
  (∀ account, account ∈ tokens →
     ∀ e w, P (collection w) → P (collection (process_account e account w))) →
  P (cycle_collection cw) →
  P (cycle_collection (run_tracking_cycle env tokens cw)).
Proof.
  intros Hp Hcw. unfold run_tracking_cycle.
  destruct tokens as [|account rest]; [done|].
  cbn [cycle_emit cycle_collection]. by apply cycle_loop_preserves.
Qed.

(** X13.  A whole cycle, over any list of accounts and whatever the
    fetches return, keeps the unique indexes: at most one summary document
    per user and one daily document per user and date. *)
Theorem run_tracking_cycle_unique_index (env : CycleEnv)
    (tokens : list Account.t) (cw : CycleWorld) :
  unique_index (cycle_collection cw) →
  unique_index (cycle_collection (run_tracking_cycle env tokens cw)).
Proof.
  apply run_tracking_cycle_preserves. intros account _ e w.
  apply (process_account_preserves unique_index).
  intros. by apply save_to_database_unique_index.
Qed.

Lemma of_user_cons (uid : string) (d : Document) (c : list Document) :
  of_user uid (d :: c)
  = if decide (doc_user_id d = uid) then d :: of_user uid c
    else of_user uid c.
Proof. unfold of_user. by rewrite filter_cons. Qed.

Lemma of_user_others (uid u : string) (c : list Document) :
  uid ≠ u → of_user uid (others u c) = of_user uid c.
Proof.
  intros Hne. induction c as [|d c IH]; [done|].
  rewrite others_cons, (of_user_cons uid d c).
  destruct (decide (doc_user_id d = u)) as [Hd|Hd].
  - rewrite IH. rewrite decide_False; [done|]. congruence.
  - by rewrite of_user_cons, IH.
Qed.

Lemma process_account_of_user (uid : string) (env : Env)
    (account : Account.t) (w : World) :
  uid ≠ default "" (Account.user_id account) →
  of_user uid (collection (process_account env account w))
  = of_user uid (collection w).
Proof.
  intros Hne.
  apply (process_account_preserves
           (λ c, of_user uid c = of_user uid (collection w))); [|done].
  intros ts up ov name pk w' Hw'.
  rewrite <-(of_user_others uid _ _ Hne), save_to_database_others.
  by rewrite of_user_others.
Qed.

(** X14.  A cycle touches the documents of the users in its account list
    only: the documents of any other user are, after the cycle, what they
    were before it, in content and in order. *)
Theorem run_tracking_cycle_leaves_unlisted_users (env : CycleEnv)
    (tokens : list Account.t) (cw : CycleWorld) (uid : string) :
  uid ∉ (λ a, default "" (Account.user_id a)) <$> tokens →
  of_user uid (cycle_collection (run_tracking_cycle env tokens cw))
  = of_user uid (cycle_collection cw).
Proof.
  intros Hnot.
  apply (run_tracking_cycle_preserves
           (λ c, of_user uid c = of_user uid (cycle_collection cw)));
    [|done].
  intros account Hin e w Hw. rewrite process_account_of_user; [done|].
  intros ->. apply Hnot. apply list_elem_of_fmap. by exists account.
Qed.

Lemma run_tracking_cycle_unique_index_witness :
  unique_index
    (cycle_collection
       (run_tracking_cycle example_cycle_env example_tokens
          empty_cycle_world)).
Proof.
  apply (run_tracking_cycle_unique_index example_cycle_env example_tokens
           empty_cycle_world).
  apply unique_index_nil.
Defined.

Lemma run_tracking_cycle_leaves_unlisted_users_witness :
  of_user "u2"
    (cycle_collection
       (run_tracking_cycle example_cycle_env example_tokens
          {| cycle_collection := example_collection; cycle_trace := [] |}))
  = of_user "u2" example_collection.
Proof.
  apply (run_tracking_cycle_leaves_unlisted_users example_cycle_env
           example_tokens
           {| cycle_collection := example_collection; cycle_trace := [] |}
           "u2").
  apply (bool_decide_unpack _). vm_compute. exact I.
Defined.

(** *** Pacing *)

Lemma cycle_sleeps_app (t1 t2 : list CycleEvent) :
  cycle_sleeps (t1 ++ t2) = cycle_sleeps t1 ++ cycle_sleeps t2.
Proof. apply omap_app. Qed.

Lemma cycle_sleeps_of_account (t : list Event) :
  cycle_sleeps (Of_account <$> t) = [].
Proof. induction t as [|e t IH]; [done|]. cbn. exact IH. Qed.

Lemma cycle_loop_sleeps (env : CycleEnv) (i : nat)
    (tokens : list Account.t) (cw : CycleWorld) :
  cycle_sleeps (cycle_trace (cycle_loop env i tokens cw))
  = cycle_sleeps (cycle_trace cw)
    ++ (pacing_delay env
        <$> (if decide (i = 0%nat) then seq 1 (length tokens - 1)
             else seq i (length tokens))).
Proof.
  revert i cw. induction tokens as [|account rest IH]; intros i cw.
  { cbn [cycle_loop length]. destruct (decide (i = 0%nat));
      by rewrite app_nil_r. }
  cbn [cycle_loop]. cbv zeta. rewrite IH. cbn [cycle_trace].
  rewrite decide_False by done.
  rewrite cycle_sleeps_app, cycle_sleeps_of_account, app_nil_r.
  destruct i as [|i].
  - change (0 <? Z.of_nat 0) with false. cbv iota.
    rewrite decide_True by done.
    replace (length (account :: rest) - 1)%nat with (length rest)
      by (cbn [length]; lia).
    done.
  - replace (0 <? Z.of_nat (S i)) with true
      by (symmetry; apply Z.ltb_lt; lia).
    rewrite decide_False by done.
    cbn [cycle_emit cycle_trace]. rewrite !cycle_sleeps_app.
    cbn [length seq fmap list_fmap]. by rewrite app_nil_r, <-app_assoc.
Qed.

(** X15.  A cycle over [n] accounts waits [n - 1] times, once before each
    account but the first, for the delays drawn for the accounts at
    positions 1, ..., n - 1 in that order; over an empty list it does not
    wait. *)
Theorem run_tracking_cycle_pacing (env : CycleEnv)
    (tokens : list Account.t) (cw : CycleWorld) :
  cycle_sleeps (cycle_trace (run_tracking_cycle env tokens cw))
  = cycle_sleeps (cycle_trace cw)
    ++ (pacing_delay env <$> seq 1 (length tokens - 1)).
Proof.
  unfold run_tracking_cycle. cbv zeta. destruct tokens as [|account rest].
  - unfold cycle_emit. cbn [cycle_trace length]. rewrite !cycle_sleeps_app.
    cbn. by rewrite !app_nil_r.
  - unfold cycle_emit at 1. cbn [cycle_trace].
    rewrite cycle_sleeps_app, cycle_loop_sleeps.
    unfold cycle_emit. cbn [cycle_trace].
    rewrite cycle_sleeps_app, decide_True by done.
    cbn [cycle_sleeps omap list_omap]. by rewrite !app_nil_r.
Qed.

(** *** Every account gets its turn *)











(** ** [get_uptime_stats] *)

(** *** The pipeline *)

Lemma insert_by_timestamp_perm (x : Summary.t) (l : list Summary.t) :
  insert_by_timestamp x l ≡ₚ x :: l.
Proof.
  induction l as [|y l IH]; cbn [insert_by_timestamp]; [done|].
  destruct (Summary.timestamp y <=? Summary.timestamp x); [done|].
  rewrite IH. apply Permutation_swap.
Qed.

Lemma sort_by_timestamp_desc_perm (l : list Summary.t) :
  sort_by_timestamp_desc l ≡ₚ l.
Proof.
  unfold sort_by_timestamp_desc.
  induction l as [|x l IH]; cbn [foldr]; [done|].
  by rewrite insert_by_timestamp_perm, IH.
Qed.

Lemma insert_by_timestamp_sorted (x : Summary.t) (l : list Summary.t) :
  StronglySorted newer_first l →
  StronglySorted newer_first (insert_by_timestamp x l).
Proof.
  unfold newer_first.
  induction 1 as [|y l Hl IH Hy]; cbn [insert_by_timestamp];
    [by repeat constructor|].
  destruct (Summary.timestamp y <=? Summary.timestamp x) eqn:E.
  - apply Z.leb_le in E. constructor; [by constructor|].
    constructor; [done|].
    eapply Forall_impl; [exact Hy|]. cbn. intros z Hz. lia.
  - apply Z.leb_gt in E. constructor; [done|].
    rewrite insert_by_timestamp_perm. constructor; [lia|done].
Qed.

Lemma sort_by_timestamp_desc_sorted (l : list Summary.t) :
  StronglySorted newer_first (sort_by_timestamp_desc l).
Proof.
  unfold sort_by_timestamp_desc.
  induction l as [|x l IH]; cbn [foldr]; [constructor|].
  by apply insert_by_timestamp_sorted.
Qed.

(** A row comes from a stored document of a user not seen before, the
    first of that user in the list. *)
Lemma group_by_user_id_from (seen : list string) (l : list Summary.t)
    (row : StatsRow.t) :
  StronglySorted newer_first l →
  row ∈ group_by_user_id seen l →
  ∃ s, s ∈ l ∧ row = stats_row s ∧ (Summary.user_id s ∉ seen)
       ∧ ∀ s', s' ∈ l → Summary.user_id s' = Summary.user_id s →
               Summary.timestamp s' ≤ Summary.timestamp s.
Proof.
  intros Hs. revert seen.
  induction Hs as [|x l Hl IH Hx]; intros seen Hrow;
    cbn [group_by_user_id] in Hrow; [by inv Hrow|].
  case_bool_decide as Hseen.
  - destruct (IH seen Hrow) as (s & Hin & -> & Hns & Hmax).
    exists s. split; [by right|]. split; [done|]. split; [done|].
    intros s' Hs' Hu. inv Hs'; [congruence|by apply Hmax].
  - inv Hrow.
    + exists x. split; [by left|]. split; [done|]. split; [done|].
      intros s' Hs' Hu. inv Hs'; [done|].
      rewrite Forall_forall in Hx. by apply Hx.
    + match goal with H : row ∈ _ |- _ => rename H into Hrow end.
      destruct (IH _ Hrow) as (s & Hin & -> & Hns & Hmax).
      exists s. split; [by right|]. split; [done|].
      apply not_elem_of_cons in Hns as [Hne Hns]. split; [done|].
      intros s' Hs' Hu. inv Hs'; first [congruence|by apply Hmax].
Qed.

(** Every user of the list that was not seen before gets a row. *)
Lemma group_by_user_id_covers (seen : list string) (l : list Summary.t)
    (s : Summary.t) :
  s ∈ l → Summary.user_id s ∉ seen →
  ∃ row, row ∈ group_by_user_id seen l ∧ StatsRow._id row = Summary.user_id s.
Proof.
  revert seen. induction l as [|x l IH]; intros seen Hin Hns;
    [by inv Hin|].
  cbn [group_by_user_id]. case_bool_decide as Hseen.
  - inv Hin; [done|]. by apply IH.
  - destruct (decide (Summary.user_id s = Summary.user_id x)) as [E|E].
    + exists (stats_row x). split; [by left|done].
    + assert (s ∈ l) as Hin' by (by inv Hin).
      destruct (IH (Summary.user_id x :: seen)) as (row & Hrow & Hid);
        [done| |].
      { apply not_elem_of_cons. done. }
      exists row. split; [by right|done].
Qed.

Lemma group_by_user_id_NoDup (seen : list string) (l : list Summary.t) :
  NoDup (StatsRow._id <$> group_by_user_id seen l)
  ∧ ∀ row, row ∈ group_by_user_id seen l → StatsRow._id row ∉ seen.
Proof.
  revert seen. induction l as [|x l IH]; intros seen;
    cbn [group_by_user_id].
  { split; [constructor|]. intros row Hrow. by inv Hrow. }
  case_bool_decide as Hseen; [apply IH|].
  destruct (IH (Summary.user_id x :: seen)) as [Hnd Hns]. split.
  - rewrite fmap_cons. constructor; [|done].
    intros (row & Hid & Hrow)%list_elem_of_fmap.
    apply Hns in Hrow. apply Hrow. rewrite <-Hid. by left.
  - intros row Hrow. apply elem_of_cons in Hrow as [->|Hrow]; [done|].
    apply Hns in Hrow. by apply not_elem_of_cons in Hrow as [].
Qed.

(** With one document per user the stage keeps every document. *)
Lemma group_by_user_id_unique (seen : list string) (l : list Summary.t) :
  NoDup (Summary.user_id <$> l) →
  Forall (λ s, Summary.user_id s ∉ seen) l →
  group_by_user_id seen l = stats_row <$> l.
Proof.
  revert seen. induction l as [|x l IH]; intros seen Hnd Hns; [done|].
  cbn [group_by_user_id]. rewrite fmap_cons in Hnd.
  apply NoDup_cons in Hnd as [Hx Hnd].
  apply Forall_cons in Hns as [Hxs Hns].
  rewrite bool_decide_eq_false_2 by done. rewrite fmap_cons. f_equal.
  apply IH; [done|].
  rewrite Forall_forall in Hns.
  apply Forall_forall. intros s Hs. apply not_elem_of_cons. split.
  - intros E. apply Hx. rewrite <-E. apply list_elem_of_fmap. by exists s.
  - by apply Hns.
Qed.

Lemma summary_keys_summaries (c : list Document) :
  omap summary_key c = Summary.user_id <$> summaries c.
Proof.
  unfold summaries. induction c as [|[s|dd] c IH]; cbn; [done|..].
  - by f_equal.
  - done.
Qed.

Lemma summary_pipeline_unique (c : list Document) :
  unique_index c → summary_pipeline c ≡ₚ stats_row <$> summaries c.
Proof.
  intros [Hs _]. unfold summary_pipeline. cbv zeta.
  fold (summaries c). rewrite summary_keys_summaries in Hs.
  rewrite group_by_user_id_unique.
  - by rewrite sort_by_timestamp_desc_perm.
  - by rewrite sort_by_timestamp_desc_perm.
  - apply Forall_forall. intros s _. apply not_elem_of_nil.
Qed.

(** X17.  The pipeline of [get_uptime_stats] yields one row per user that
    has a summary document: the rows have pairwise distinct [_id]s, every
    row is built from a stored summary, and every stored summary has the
    row of its user, whose [last_updated] is at least its timestamp: the
    row shows the most recent summary of the user. *)
Theorem summary_pipeline_latest_per_user (c : list Document) :
  NoDup (StatsRow._id <$> summary_pipeline c)
  ∧ (∀ row, row ∈ summary_pipeline c →
       ∃ s, s ∈ summaries c ∧ row = stats_row s)
  ∧ (∀ s, s ∈ summaries c →
       ∃ row, row ∈ summary_pipeline c
              ∧ StatsRow._id row = Summary.user_id s
              ∧ Summary.timestamp s ≤ StatsRow.last_updated row).
Proof.
  unfold summary_pipeline. cbv zeta. fold (summaries c).
  pose proof (sort_by_timestamp_desc_sorted (summaries c)) as Hsorted.
  split; [apply group_by_user_id_NoDup|]. split.
  - intros row Hrow.
    destruct (group_by_user_id_from [] _ row Hsorted Hrow)
      as (s & Hin & -> & _ & _).
    exists s. split; [|done]. by rewrite sort_by_timestamp_desc_perm in Hin.
  - intros s Hs.
    assert (s ∈ sort_by_timestamp_desc (summaries c)) as Hs'
      by (by rewrite sort_by_timestamp_desc_perm).
    destruct (group_by_user_id_covers [] _ s Hs') as (row & Hrow & Hid);
      [apply not_elem_of_nil|].
    exists row. split; [done|]. split; [done|].
    destruct (group_by_user_id_from [] _ row Hsorted Hrow)
      as (s0 & Hin0 & -> & _ & Hmax).
    cbn in *. by apply Hmax.
Qed.

(** *** What is printed *)

Lemma print_rows_eq (rows : list StatsRow.t) (today alltime : Z) :
  print_rows rows today alltime
  = (flat_map row_lines rows,
     today + sumZ (StatsRow.today_total_minutes <$> rows),
     alltime + sumZ (StatsRow.alltime_total_minutes <$> rows)).
Proof.
  revert today alltime. induction rows as [|row rows IH];
    intros today alltime; cbn [print_rows].
  { cbn. by rewrite !Z.add_0_r. }
  cbv zeta. rewrite IH. rewrite !fmap_cons, !sumZ_cons.
  cbn [flat_map row_lines app]. by rewrite !Z.add_assoc.
Qed.

Lemma get_uptime_stats_eq (c : list Document) :
  summary_pipeline c ≠ [] →
  get_uptime_stats c
  = [Summary_header; Rule]
    ++ flat_map row_lines (summary_pipeline c)
    ++ [Total_today_line
          (sumZ (StatsRow.today_total_minutes <$> summary_pipeline c) `div` 60)
          (sumZ (StatsRow.today_total_minutes <$> summary_pipeline c) `mod` 60);
        Total_alltime_line
          (sumZ (StatsRow.alltime_total_minutes <$> summary_pipeline c) `div` 60)
          (Py.int_truediv
             (sumZ (StatsRow.alltime_total_minutes <$> summary_pipeline c))
             (60 * 24));
        Accounts_line (Z.of_nat (length (summary_pipeline c)));
        Rule].
Proof.
  intros Hne. unfold get_uptime_stats. cbv zeta.
  destruct (summary_pipeline c) as [|row rows] eqn:E; [done|].
  by rewrite print_rows_eq.
Qed.

Lemma summary_pipeline_nil (c : list Document) :
  summary_pipeline c = [] ↔ summaries c = [].
Proof.
  unfold summary_pipeline. cbv zeta. fold (summaries c). split.
  - intros Hnil.
    destruct (sort_by_timestamp_desc (summaries c)) as [|x l] eqn:E.
    + apply Permutation_nil. by rewrite <-E, sort_by_timestamp_desc_perm.
    + cbn [group_by_user_id] in Hnil.
      by rewrite bool_decide_eq_false_2 in Hnil by apply not_elem_of_nil.
  - by intros ->.
Qed.

(** X18.  [get_uptime_stats] prints the single line "No data available"
    exactly when the collection holds no summary document, whatever daily
    documents it holds. *)
Theorem get_uptime_stats_no_data (c : list Document) :
  get_uptime_stats c = [No_data_available] ↔ summaries c = [].
Proof.
  rewrite <-summary_pipeline_nil. split.
  - intros Hout. destruct (summary_pipeline c) as [|row rows] eqn:E; [done|].
    rewrite get_uptime_stats_eq in Hout by (by rewrite E).
    cbn [app] in Hout. discriminate Hout.
  - intros Hnil. unfold get_uptime_stats. cbv zeta. by rewrite Hnil.
Qed.

Lemma sumZ_perm (l1 l2 : list Z) : l1 ≡ₚ l2 → sumZ l1 = sumZ l2.
Proof.
  induction 1 as [|x l1 l2 _ IH|x y l|l1 l2 l3 _ IH1 _ IH2];
    rewrite ?sumZ_cons; [done|lia|lia|congruence].
Qed.

Lemma length_flat_map_row_lines (rows : list StatsRow.t) :
  length (flat_map row_lines rows) = (4 * length rows)%nat.
Proof.
  induction rows as [|row rows IH]; [done|].
  cbn [flat_map]. rewrite length_app, IH. cbn [row_lines length]. lia.
Qed.

(** X19.  In a collection that respects the unique indexes and holds some
    summary, the report lists every summary (four lines each) and closes
    with the totals over all of them: the sum of the [today_total_minutes]
    split into hours and minutes, the sum of the [alltime_total_minutes] in
    whole hours and in days, and the number of summaries as the number of
    accounts. *)
Theorem get_uptime_stats_totals (c : list Document) :
  unique_index c → summaries c ≠ [] →
  let today := sumZ (Summary.today_total_minutes <$> summaries c) in
  let alltime := sumZ (Summary.alltime_total_minutes <$> summaries c) in
  ∃ lines,
    length lines = (4 * length (summaries c))%nat
    ∧ get_uptime_stats c
      = [Summary_header; Rule] ++ lines
        ++ [Total_today_line (today `div` 60) (today `mod` 60);
            Total_alltime_line (alltime `div` 60)
              (Py.int_truediv alltime (60 * 24));
            Accounts_line (Z.of_nat (length (summaries c)));
            Rule].
Proof.
  intros Hu Hne today alltime.
  pose proof (summary_pipeline_unique c Hu) as Hp.
  exists (flat_map row_lines (summary_pipeline c)). split.
  - rewrite <-(length_fmap stats_row (summaries c)), <-Hp.
    apply length_flat_map_row_lines.
  - rewrite get_uptime_stats_eq by (by rewrite summary_pipeline_nil).
    assert (sumZ (StatsRow.today_total_minutes <$> summary_pipeline c) = today)
      as ->.
    { unfold today. rewrite (sumZ_perm _ _ (fmap_Permutation _ _ _ Hp)).
      by rewrite <-list_fmap_compose. }
    assert (sumZ (StatsRow.alltime_total_minutes <$> summary_pipeline c)
            = alltime) as ->.
    { unfold alltime. rewrite (sumZ_perm _ _ (fmap_Permutation _ _ _ Hp)).
      by rewrite <-list_fmap_compose. }
    assert (length (summary_pipeline c) = length (summaries c)) as ->
      by (by rewrite (Permutation_length Hp), length_fmap).
    done.
Qed.

Lemma get_uptime_stats_totals_witness :
  let today :=
    sumZ (Summary.today_total_minutes <$> summaries example_summaries) in
  let alltime :=
    sumZ (Summary.alltime_total_minutes <$> summaries example_summaries) in
  ∃ lines,
    length lines = (4 * length (summaries example_summaries))%nat
    ∧ get_uptime_stats example_summaries
      = [Summary_header; Rule] ++ lines
        ++ [Total_today_line (today `div` 60) (today `mod` 60);
            Total_alltime_line (alltime `div` 60)
              (Py.int_truediv alltime (60 * 24));
            Accounts_line (Z.of_nat (length (summaries example_summaries)));
            Rule].
Proof.
  apply (get_uptime_stats_totals example_summaries).
  - split; apply (bool_decide_unpack _); vm_compute; exact I.
  - discriminate.
Defined.

Lemma elem_of_flat_map_row_lines (line : PrintedLine) (rows : list StatsRow.t) :
  line ∈ flat_map row_lines rows →
  ∃ row, row ∈ rows ∧ line ∈ row_lines row.
Proof.
  induction rows as [|row rows IH]; cbn [flat_map]; [by intros ?%elem_of_nil|].
  intros [Hin|Hin]%elem_of_app.
  - exists row. split; [by left|done].
  - destruct (IH Hin) as (row' & Hrow' & Hl). exists row'.
    split; [by right|done].
Qed.

Lemma elem_of_get_uptime_stats_today (c : list Document) (h m : Z) :
  Today_line h m ∈ get_uptime_stats c →
  ∃ row, row ∈ summary_pipeline c
         ∧ h = StatsRow.today_total_minutes row `div` 60
         ∧ m = StatsRow.today_total_minutes row `mod` 60.
Proof.
  intros Hin. destruct (decide (summary_pipeline c = [])) as [Hnil|Hne].
  { unfold get_uptime_stats in Hin. cbv zeta in Hin. rewrite Hnil in Hin.
    apply list_elem_of_singleton in Hin. discriminate Hin. }
  rewrite get_uptime_stats_eq in Hin by done.
  apply elem_of_app in Hin as [Hin|Hin].
  { repeat (apply elem_of_cons in Hin as [Hin|Hin]; [discriminate Hin|]).
    by apply elem_of_nil in Hin. }
  apply elem_of_app in Hin as [Hin|Hin].
  - apply elem_of_flat_map_row_lines in Hin as (row & Hrow & Hin).
    exists row. split; [done|]. unfold row_lines in Hin.
    apply elem_of_cons in Hin as [Hin|Hin]; [discriminate Hin|].
    apply elem_of_cons in Hin as [Hin|Hin]; [by injection Hin as -> ->|].
    repeat (apply elem_of_cons in Hin as [Hin|Hin]; [discriminate Hin|]).
    by apply elem_of_nil in Hin.
  - repeat (apply elem_of_cons in Hin as [Hin|Hin]; [discriminate Hin|]).
    by apply elem_of_nil in Hin.
Qed.

(** X20.  The "Today" line of an account splits the stored minutes
    exactly: the minutes shown are between 0 and 59, and sixty times the
    hours shown plus the minutes shown is the [today_total_minutes] of a
    stored summary. *)
Theorem get_uptime_stats_today_line_exact (c : list Document) (h m : Z) :
  Today_line h m ∈ get_uptime_stats c →
  0 ≤ m < 60
  ∧ ∃ s, s ∈ summaries c ∧ Summary.today_total_minutes s = 60 * h + m.
Proof.
  intros Hin.
  destruct (elem_of_get_uptime_stats_today c h m Hin)
    as (row & Hrow & -> & ->).
  split; [by apply Z.mod_pos_bound|].
  unfold summary_pipeline in Hrow. cbv zeta in Hrow. fold (summaries c) in Hrow.
  destruct (group_by_user_id_from [] _ row
              (sort_by_timestamp_desc_sorted (summaries c)) Hrow)
    as (s & Hs & -> & _ & _).
  exists s. split; [by rewrite sort_by_timestamp_desc_perm in Hs|].
  cbn [stats_row StatsRow.today_total_minutes]. by apply Z.div_mod.
Qed.

Lemma get_uptime_stats_today_line_exact_witness :
  0 ≤ 5 < 60
  ∧ ∃ s, s ∈ summaries example_summaries
         ∧ Summary.today_total_minutes s = 60 * 2 + 5.
Proof.
  apply (get_uptime_stats_today_line_exact example_summaries 2 5).
  vm_compute. do 3 right. left.
Defined.

(** *** From [save_to_database] to the report *)

Lemma elem_of_summaries (s : Summary.t) (c : list Document) :
  SummaryDocument s ∈ c → s ∈ summaries c.
Proof.
  unfold summaries. intros Hin. apply list_elem_of_omap.
  by exists (SummaryDocument s).
Qed.

Lemma save_to_database_summary_stored (ts : Z) (up : option (list Raw.t))
    (ov : gmap string Z) (name uid pk : string) (w : World) :
  ov ≠ ∅ →
  ∃ records,
    SummaryDocument (summary_doc ts ov name uid pk records)
    ∈ collection (save_to_database ts up (Some ov) name uid pk w).
Proof.
  intros Hov. rewrite save_to_database_collection. cbv zeta.
  cbn [Py.truthy_dict default]. rewrite bool_decide_eq_false_2 by done.
  cbn [negb]. eexists.
  apply save_daily_records_keeps; [|apply replace_one_elem_of].
  by apply Forall_forall.
Qed.

(** X21.  What [save_to_database] stores is what [get_uptime_stats] shows:
    after a call with an overview that has fields, on a collection that
    respects the unique indexes, the report has the four lines of that
    account, with the account name, the overview's [todayTotalReward]
    split into hours and minutes, and the breakdown text computed from its
    [allTimeTotalReward]. *)
Theorem get_uptime_stats_after_save (ts : Z) (up : option (list Raw.t))
    (ov : gmap string Z) (name uid pk : string) (w : World) :
  unique_index (collection w) → ov ≠ ∅ →
  let today := default 0 (ov !! "todayTotalReward") in
  let alltime := default 0 (ov !! "allTimeTotalReward") in
  ∃ before after,
    get_uptime_stats
      (collection (save_to_database ts up (Some ov) name uid pk w))
    = before
      ++ [Account_line name;
          Today_line (today `div` 60) (today `mod` 60);
          Total_line (total_formatted (participation_time_breakdown alltime));
          Blank_line]
      ++ after.
Proof.
  intros Hu Hov today alltime.
  set (c := collection (save_to_database ts up (Some ov) name uid pk w)).
  destruct (save_to_database_summary_stored ts up ov name uid pk w Hov)
    as (records & Hdoc).
  fold c in Hdoc. apply elem_of_summaries in Hdoc.
  assert (unique_index c) as Hc by (by apply save_to_database_unique_index).
  assert (stats_row (summary_doc ts ov name uid pk records)
          ∈ summary_pipeline c) as Hrow.
  { rewrite (summary_pipeline_unique c Hc). apply list_elem_of_fmap.
    by eexists. }
  apply list_elem_of_split in Hrow as (rows1 & rows2 & Hrows).
  rewrite get_uptime_stats_eq by (rewrite Hrows; by destruct rows1).
  assert (flat_map row_lines (summary_pipeline c)
          = flat_map row_lines rows1
            ++ row_lines (stats_row (summary_doc ts ov name uid pk records))
            ++ flat_map row_lines rows2) as ->
    by (by rewrite Hrows, flat_map_app).
  eexists ([Summary_header; Rule] ++ flat_map row_lines rows1), _.
  rewrite <-!app_assoc. reflexivity.
Qed.

Lemma get_uptime_stats_after_save_witness :
  let today := default 0 (example_overview !! "todayTotalReward") in
  let alltime := default 0 (example_overview !! "allTimeTotalReward") in
  ∃ before after,
    get_uptime_stats
      (collection
         (save_to_database 7 None (Some example_overview) "Account 1" "u1"
            "pk" empty_world))
    = before
      ++ [Account_line "Account 1";
          Today_line (today `div` 60) (today `mod` 60);
          Total_line (total_formatted (participation_time_breakdown alltime));
          Blank_line]
      ++ after.
Proof.
  apply (get_uptime_stats_after_save 7 None example_overview "Account 1"
           "u1" "pk" empty_world).
  - apply unique_index_nil.
  - apply (bool_decide_unpack _). vm_compute. exact I.
Defined.

(** ** The log of [process_account] *)













(** ** [load_proxies] and [get_random_proxy] *)

Section StripFacts.
Context {C : Type} (is_space : C → bool).

Lemma lstrip_nil_iff (s : list C) :
  lstrip is_space s = [] ↔ Forall (λ c, is_space c = true) s.
Proof.
  induction s as [|c s IH]; cbn [lstrip]; [by split|].
  destruct (is_space c) eqn:E.
  - rewrite IH. split; [by constructor|by inv 1].
  - split; [done|]. inv 1. congruence.
Qed.

Lemma rstrip_nil_iff (s : list C) :
  rstrip is_space s = [] ↔ Forall (λ c, is_space c = true) s.
Proof.
  induction s as [|c s IH]; cbn [rstrip]; [by split|].
  destruct (rstrip is_space s) as [|r rs] eqn:Er.
  - destruct (is_space c) eqn:E.
    + split; [intros _; constructor; [done|by apply IH]|done].
    + split; [done|]. inv 1. congruence.
  - split; [done|]. inv 1.
    match goal with H : Forall _ s |- _ => by apply IH in H end.
Qed.

Lemma head_lstrip (s : list C) (c : C) :
  head (lstrip is_space s) = Some c → is_space c = false.
Proof.
  induction s as [|x s IH]; cbn [lstrip]; [done|].
  destruct (is_space x) eqn:E; [done|]. by intros [= <-].
Qed.

Lemma head_rstrip (s : list C) (c : C) :
  head (rstrip is_space s) = Some c → head s = Some c.
Proof.
  destruct s as [|x s]; cbn [rstrip]; [done|].
  destruct (rstrip is_space s); [|done]. by destruct (is_space x).
Qed.

Lemma last_rstrip (s : list C) (c : C) :
  last (rstrip is_space s) = Some c → is_space c = false.
Proof.
  induction s as [|x s IH]; cbn [rstrip]; [done|].
  destruct (rstrip is_space s) as [|r rs] eqn:Er.
  - destruct (is_space x) eqn:E; [done|]. by intros [= <-].
  - change (last (x :: r :: rs)) with (last (r :: rs)). exact IH.
Qed.

Lemma strip_nil_iff (s : list C) :
  strip is_space s = [] ↔ Forall (λ c, is_space c = true) s.
Proof.
  unfold strip. rewrite rstrip_nil_iff. split.
  - intros Hall. apply lstrip_nil_iff.
    destruct (lstrip is_space s) as [|c r] eqn:E; [done|].
    assert (is_space c = false) as Hc
      by (apply (head_lstrip s); by rewrite E).
    inv Hall. congruence.
  - intros Hall. apply lstrip_nil_iff in Hall. rewrite Hall. constructor.
Qed.

(** A stripped line neither starts nor ends with whitespace. *)
Lemma strip_ends (s : list C) (c : C) :
  (head (strip is_space s) = Some c → is_space c = false)
  ∧ (last (strip is_space s) = Some c → is_space c = false).
Proof.
  unfold strip. split.
  - intros H%head_rstrip. by apply (head_lstrip s).
  - apply last_rstrip.
Qed.

(** X23.  Every proxy [load_proxies] returns is a line of the file with
    the whitespace at its two ends removed: it is not empty and neither
    starts nor ends with a whitespace character. *)
Theorem load_proxies_stripped (file : option (list (list C))) :
  Forall
    (λ proxy,
       proxy ≠ []
       ∧ (∀ c, head proxy = Some c → is_space c = false)
       ∧ (∀ c, last proxy = Some c → is_space c = false)
       ∧ ∃ lines line,
           file = Some lines ∧ line ∈ lines ∧ proxy = strip is_space line)
    (load_proxies is_space file).1.
Proof.
  destruct file as [lines|]; cbn [load_proxies]; [|constructor].
  cbv zeta.
  assert (Forall
            (λ proxy,
               proxy ≠ []
               ∧ (∀ c, head proxy = Some c → is_space c = false)
               ∧ (∀ c, last proxy = Some c → is_space c = false)
               ∧ ∃ lines' line,
                   Some lines = Some lines' ∧ line ∈ lines'
                   ∧ proxy = strip is_space line)
            (strip is_space
             <$> base.filter (λ line, strip is_space line ≠ []) lines))
    as Hall.
  { apply Forall_fmap, Forall_forall. intros line Hline.
    apply list_elem_of_filter in Hline as [Hne Hin]. cbn.
    split; [done|]. split; [intros c; apply strip_ends|].
    split; [intros c; apply strip_ends|]. by exists lines, line. }
  by destruct (strip is_space <$> _).
Qed.

(** X24.  [get_random_proxy] gives no proxy exactly when [proxy.txt] is
    missing or all its lines are blank; otherwise it gives one of the
    loaded proxies, whatever position is drawn. *)
Theorem get_random_proxy_none_iff (file : option (list (list C)))
    (choice : nat) :
  (get_random_proxy (load_proxies is_space file).1 choice = None
   ↔ match file with
     | None => True
     | Some lines => Forall (Forall (λ c, is_space c = true)) lines
     end)
  ∧ ∀ proxy,
      get_random_proxy (load_proxies is_space file).1 choice = Some proxy →
      proxy ∈ (load_proxies is_space file).1.
Proof.
  split.
  - destruct file as [lines|]; cbn [load_proxies]; [|done]. cbv zeta.
    destruct (strip is_space
              <$> base.filter (λ line, strip is_space line ≠ []) lines)
      as [|p ps] eqn:E; cbn [fst get_random_proxy].
    + split; [intros _|done]. apply fmap_nil_inv in E.
      apply Forall_forall. intros line Hline. apply strip_nil_iff.
      destruct (decide (strip is_space line = [])) as [|Hne]; [done|].
      assert (line ∈ base.filter (λ line, strip is_space line ≠ []) lines)
        as Hin by (by apply list_elem_of_filter).
      rewrite E in Hin. by apply elem_of_nil in Hin.
    + split.
      * intros Hnone. apply lookup_ge_None in Hnone.
        assert (choice `mod` length (p :: ps) < length (p :: ps))%nat
          by (apply Nat.mod_upper_bound; done).
        lia.
      * intros Hall. exfalso.
        assert (p ∈ strip is_space
                    <$> base.filter (λ line, strip is_space line ≠ []) lines)
          as Hp by (rewrite E; by left).
        apply list_elem_of_fmap in Hp as (line & -> & Hline).
        apply list_elem_of_filter in Hline as [Hne Hin].
        apply Hne, strip_nil_iff. rewrite Forall_forall in Hall. by apply Hall.
  - intros proxy. destruct (load_proxies is_space file).1 as [|p ps];
      cbn [get_random_proxy]; [done|].
    apply list_elem_of_lookup_2.
Qed.

End StripFacts.

(** ** [load_tokens] *)

Lemma attempts_calls_extend (env : Env) (account : Account.t)
    (range : list nat) (w : World) :
  ∃ added,
    calls (trace (attempts env account range w)) = calls (trace w) ++ added.
Proof.
  revert w. induction range as [|i rest IH]; intros w.
  { exists []. by rewrite app_nil_r. }
  destruct (complete_or_incomplete account) as [Hc|Hi].
  - rewrite attempts_cons by done. destruct (has_data env i).
    + eexists. rewrite calls_emit, save_to_database_calls,
        calls_begin_attempt. cbn [is_call]. by rewrite app_nil_r, <-!app_assoc.
    + destruct (IH (end_failed_attempt account i
                      (begin_attempt env account i w))) as [added ->].
      eexists. rewrite calls_end_failed_attempt, calls_begin_attempt.
      by rewrite <-app_assoc.
  - exists []. rewrite attempts_incomplete by done.
    by rewrite calls_emit.
Qed.

(** The first call of a complete account is the overview request, made
    with its token. *)
Lemma process_account_first_call (env : Env) (account : Account.t)
    (w : World) :
  complete account →
  ∃ rest,
    calls (trace (process_account env account w))
    = calls (trace w)
      ++ Fetch_overview_data (default "" (Account.jwt_token account))
           (random_proxy env 0)
         :: rest.
Proof.
  intros Hc. unfold process_account.
  change (seq 0 (Z.to_nat max_retries)) with [0; 1; 2]%nat.
  assert (attempt_calls env account 0
          = [Fetch_overview_data (default "" (Account.jwt_token account))
               (random_proxy env 0);
             Fetch_uptime_data (default "" (Account.jwt_token account))
               (default "" (Account.pubkey account)) (random_proxy env 0)])
    as Hfirst by reflexivity.
  rewrite attempts_cons by done. destruct (has_data env 0).
  - eexists. rewrite calls_emit, save_to_database_calls,
      calls_begin_attempt, Hfirst. cbn [is_call].
    rewrite app_nil_r, <-!app_assoc. reflexivity.
  - destruct (attempts_calls_extend env account [1; 2]%nat
                (end_failed_attempt account 0
                   (begin_attempt env account 0 w))) as [added ->].
    eexists. rewrite calls_end_failed_attempt, calls_begin_attempt, Hfirst.
    rewrite <-!app_assoc. reflexivity.
Qed.

(** X25.  When the tokens file is missing, [load_tokens] returns no
    account and leaves the template in its place.  Loading that template
    returns its one placeholder account, which has its three required
    fields: [process_account] does not skip it but requests the overview
    with the placeholder token. *)
Theorem load_tokens_template_is_processed :
  (load_tokens No_file).1.1 = []
  ∧ (load_tokens No_file).1.2 = template
  ∧ ∃ account,
      (load_tokens template).1.1 = [account]
      ∧ (load_tokens template).1.2 = template
      ∧ complete account
      ∧ ∀ env w, ∃ rest,
          calls (trace (process_account env account w))
          = calls (trace w)
            ++ Fetch_overview_data "YOUR_JWT_TOKEN_HERE" (random_proxy env 0)
               :: rest.
Proof.
  split; [done|]. split; [done|]. eexists. split; [done|]. split; [done|].
  assert (complete
            {| Account.name := Some "Account 1";
               Account.jwt_token := Some "YOUR_JWT_TOKEN_HERE";
               Account.user_id := Some "YOUR_USER_ID_HERE";
               Account.pubkey := Some "YOUR_PUBKEY_HERE" |}) as Hc
    by (repeat split; reflexivity).
  split; [done|]. intros env w.
  by apply (process_account_first_call env _ w) in Hc.
Qed.

(** X26.  With a tokens file that is missing, not loadable, without a
    ["tokens"] key or with an empty list, a cycle processes nothing: it
    logs its start and the warning that no tokens were loaded, and leaves
    the collection as it was. *)
Theorem run_tracking_cycle_without_tokens (env : CycleEnv)
    (file : TokensFile) (cw : CycleWorld) :
  without_tokens file →
  run_tracking_cycle env (load_tokens file).1.1 cw
  = {| cycle_collection := cycle_collection cw;
       cycle_trace :=
         cycle_trace cw
         ++ [Cycle_log INFO Starting_cycle;
             Cycle_log WARNING No_tokens_loaded] |}.
Proof.
  intros [-> | [-> | [-> | ->]]]; cbn [load_tokens fst snd default];
    unfold run_tracking_cycle, cycle_emit; cbn [cycle_collection cycle_trace];
    by rewrite <-app_assoc.
Qed.

Lemma run_tracking_cycle_without_tokens_witness :
  run_tracking_cycle example_cycle_env (load_tokens Unloadable).1.1
    empty_cycle_world
  = {| cycle_collection := cycle_collection empty_cycle_world;
       cycle_trace :=
         cycle_trace empty_cycle_world
         ++ [Cycle_log INFO Starting_cycle;
             Cycle_log WARNING No_tokens_loaded] |}.
Proof.
  apply (run_tracking_cycle_without_tokens example_cycle_env Unloadable
           empty_cycle_world).
  right. left. reflexivity.
Defined.

(** ** How far the time breakdown is off *)

Lemma forallb_below (p : Z → bool) (n : nat) (t : Z) :
  forallb p (Z.of_nat <$> seq 0 n) = true →
  0 ≤ t < Z.of_nat n → p t = true.
Proof.
  intros Hall Ht. rewrite forallb_forall in Hall. apply Hall.
  apply list_elem_of_In, list_elem_of_fmap. exists (Z.to_nat t).
  split; [lia|]. apply elem_of_seq. lia.
Qed.

(** X27.  For every total below two days (2880 minutes) the breakdown has
    the exact days and hours; its minutes are the exact ones or one less,
    never more. *)
Theorem participation_time_breakdown_close (t : Z) :
  0 ≤ t < 2880 →
  days (participation_time_breakdown t) = t `div` 1440
  ∧ hours (participation_time_breakdown t) = (t `mod` 1440) `div` 60
  ∧ (minutes (participation_time_breakdown t) = t `mod` 60
     ∨ minutes (participation_time_breakdown t) = t `mod` 60 - 1).
Proof.
  intros Ht.
  assert (breakdown_close t = true) as Hok.
  { apply (forallb_below breakdown_close (Z.to_nat 2880)); [|lia].
    vm_compute. reflexivity. }
  unfold breakdown_close in Hok. cbv zeta in Hok.
  apply andb_true_iff in Hok as [[Hd Hh]%andb_true_iff Hm].
  apply Z.eqb_eq in Hd, Hh. split; [done|]. split; [done|].
  apply orb_true_iff in Hm as [Hm|Hm]; apply Z.eqb_eq in Hm; auto.
Qed.

Lemma participation_time_breakdown_close_witness :
  days (participation_time_breakdown 1500) = 1500 `div` 1440
  ∧ hours (participation_time_breakdown 1500) = (1500 `mod` 1440) `div` 60
  ∧ (minutes (participation_time_breakdown 1500) = 1500 `mod` 60
     ∨ minutes (participation_time_breakdown 1500) = 1500 `mod` 60 - 1).
Proof.
  apply (participation_time_breakdown_close 1500). lia.
Defined.
